(** * to-markdown: the declarative table engine of [packages/to-markdown/index.js]

    A shallow embedding of the renderer that turns a custom-elements manifest
    into an mdast document tree, and the properties of its table builder,
    declaration sections and module documents. *)

From Stdlib Require Import List String Ascii ZArith Bool Lia.
From Stdlib Require Import DecimalString.
Import ListNotations.
Local Open Scope string_scope.
Local Open Scope Z_scope.
Local Open Scope list_scope.

Set Implicit Arguments.
Set Warnings "-register-all".

(* ================================================================= *)
(** ** Results of fallible JavaScript code *)

(** A JavaScript expression either produces a value or throws.  Nothing in
    this program catches an exception or looks at the one it gets, so the
    embedding has a single failure for "an exception is thrown".  It is named
    after the exception the language raises here (a [TypeError]: property
    access on [undefined]/[null], a call of something that is not a function,
    a value that cannot be converted to a string); the [Error] with which
    [mdast-builder] rejects a heading depth is this failure too. *)
Inductive result (A : Type) : Type :=
| Ok (a : A)
| TypeError.
Arguments Ok {A} a.
Arguments TypeError {A}.

Definition bind {A B} (m : result A) (k : A -> result B) : result B :=
  match m with
  | Ok a => k a
  | TypeError => TypeError
  end.

Notation "x <- m ;; k" := (bind m (fun x => k))
  (at level 61, m at next level, right associativity).

Definition returns {A} (m : result A) : Prop := exists a, m = Ok a.

Fixpoint mapM {A B} (f : A -> result B) (xs : list A) : result (list B) :=
  match xs with
  | [] => Ok []
  | x :: xs' => y <- f x ;; ys <- mapM f xs' ;; Ok (y :: ys)
  end.

(** [xs.map((x, i) => f(x, i))], with the index counted from [i]. *)
Fixpoint mapM_indexed {A B} (f : A -> nat -> result B) (i : nat) (xs : list A)
  : result (list B) :=
  match xs with
  | [] => Ok []
  | x :: xs' => y <- f x i ;; ys <- mapM_indexed f (S i) xs' ;; Ok (y :: ys)
  end.

(* ================================================================= *)
(** ** JavaScript values *)

Module Js.

(** The manifest is JSON data: every record of it is one of these values.
    Objects keep their properties in insertion order; a lookup takes the first
    binding of a key.  Numbers are integers here: the program only tests
    them for truth and prints them; an integer that is no double stands for
    the double next to it. *)
Inductive value : Type :=
| VUndefined
| VNull
| VBool (b : bool)
| VNum (n : Z)
| VStr (s : string)
| VArr (xs : list value)
| VObj (props : list (string * value)).

(** [x ? _ : _], [!x], and the test [Array.prototype.filter] applies to what
    its callback returns. *)
Definition truthy (v : value) : bool :=
  match v with
  | VUndefined | VNull => false
  | VBool b => b
  | VNum n => negb (n =? 0)
  | VStr s => negb (String.eqb s "")
  | VArr _ | VObj _ => true
  end.

Definition nullish (v : value) : bool :=
  match v with
  | VUndefined | VNull => true
  | _ => false
  end.

(** [a ?? b] *)
Definition coalesce (a b : value) : value := if nullish a then b else a.

Fixpoint lookup (k : string) (props : list (string * value)) : value :=
  match props with
  | [] => VUndefined
  | (k', v) :: rest => if String.eqb k k' then v else lookup k rest
  end.

(** [x[k]] on a value that is not nullish: an own property of an object, the
    [length] of an array or a string, [undefined] otherwise.  (The keys this
    program reads are manifest field names and [length]; none of them is an
    inherited method or an index.) *)
Definition get_prop (x : value) (k : string) : value :=
  match x with
  | VObj props => lookup k props
  | VArr xs => if String.eqb k "length" then VNum (Z.of_nat (List.length xs)) else VUndefined
  | VStr s => if String.eqb k "length" then VNum (Z.of_nat (String.length s)) else VUndefined
  | _ => VUndefined
  end.

(** A destructuring default, [{ k = d }]: it replaces [undefined] only. *)
Definition default_to (d v : value) : value :=
  match v with
  | VUndefined => d
  | _ => v
  end.

(** [x.k]: throws on [undefined] and [null]. *)
Definition prop (x : value) (k : string) : result value :=
  if nullish x then TypeError else Ok (get_prop x k).

(** [x?.k] *)
Definition opt_prop (x : value) (k : string) : value :=
  if nullish x then VUndefined else get_prop x k.

(** [x === 'lit'] for a string literal. *)
Definition is_str (x : value) (lit : string) : bool :=
  match x with
  | VStr s => String.eqb s lit
  | _ => false
  end.

(** Calling an array method ([filter], [map], [flatMap]) on [x]: anything but
    an array has no such method and the call throws. *)
Definition array_of (x : value) : result (list value) :=
  match x with
  | VArr xs => Ok xs
  | _ => TypeError
  end.

(** [xs.join(sep)] on an array of strings. *)
Fixpoint join (sep : string) (xs : list string) : string :=
  match xs with
  | [] => ""
  | [x] => x
  | x :: rest => x ++ sep ++ join sep rest
  end.

(** The decimal digits of an integer. *)
Definition string_of_Z (n : Z) : string :=
  NilZero.string_of_int (Z.to_int n).

(** A number is a double.  [rounds_to n v]: the integer [v] lies in the
    interval of reals that round to the double of value [n] (for [0 < n]);
    the ends of the interval belong to it when the mantissa of [n] is even.
    Below [2 ^ 53] the integers are doubles and only [n] itself rounds to
    [n]. *)
Definition rounds_to (n v : Z) : bool :=
  let e := Z.log2 n - 52 in
  if e <=? 0 then v =? n
  else
    let up := 2 ^ e in
    let down := if n =? 2 ^ Z.log2 n then 2 ^ (e - 1) else 2 ^ e in
    if Z.even (n / 2 ^ e)
    then ((2 * n - down <=? 2 * v) && (2 * v <=? 2 * n + up))%bool
    else ((2 * n - down <? 2 * v) && (2 * v <? 2 * n + up))%bool.

(** The multiple of [scale] next to [n] that rounds to [n], if there is
    one: the closer one of the two around [n], the one with the even
    quotient when both are as close. *)
Definition candidate (n scale : Z) : option Z :=
  let lo := n / scale * scale in
  let hi := lo + scale in
  match rounds_to n lo, rounds_to n hi with
  | true, true =>
      Some (if n - lo <? hi - n then lo
            else if hi - n <? n - lo then hi
            else if Z.even (n / scale) then lo else hi)
  | true, false => Some lo
  | false, true => Some hi
  | false, false => None
  end.

(** The first candidate over the scales, coarsest first: the integer with
    the fewest significant digits that rounds to [n]. *)
Fixpoint shortest (n : Z) (scales : list Z) : Z :=
  match scales with
  | [] => n
  | scale :: rest =>
      match candidate n scale with
      | Some v => v
      | None => shortest n rest
      end
  end.

(** A string of digits without its trailing zeros. *)
Fixpoint strip_zeros (s : string) : string :=
  match s with
  | EmptyString => EmptyString
  | String c rest =>
      match strip_zeros rest with
      | EmptyString => if Ascii.eqb c "0" then EmptyString else String c EmptyString
      | kept => String c kept
      end
  end.

(** [Number::toString] of a positive integer-valued double: its shortest
    digits that read back as the same double, written out in full up to 21
    digits and with an exponent beyond. *)
Definition positive_to_string (n : Z) : string :=
  let digits := String.length (string_of_Z n) in
  let scales := map (fun i => 10 ^ Z.of_nat i) (rev (seq 0 digits)) in
  let shown := string_of_Z (shortest n scales) in
  if Nat.leb (String.length shown) 21 then shown
  else
    let exponent := string_of_Z (Z.of_nat (String.length shown) - 1) in
    match strip_zeros shown with
    | String c EmptyString => String c ("e+" ++ exponent)
    | String c rest => String c ("." ++ rest ++ "e+" ++ exponent)
    | EmptyString => shown
    end.

(** The double next to a positive integer: the integer itself below
    [2 ^ 53], and beyond the closest integer with 53 significant bits, the one
    with the even mantissa when two are as close.  From [2 ^ 1024] on the
    result stands for [Infinity]. *)
Definition to_double (n : Z) : Z :=
  let e := Z.log2 n - 52 in
  if e <=? 0 then n
  else
    let q := n / 2 ^ e in
    let r := n mod 2 ^ e in
    let half := 2 ^ (e - 1) in
    (if r <? half then q
     else if half <? r then q + 1
     else if Z.even q then q else q + 1) * 2 ^ e.

(** [Number::toString] of a positive integer, read as a number. *)
Definition magnitude_to_string (n : Z) : string :=
  let d := to_double n in
  if 2 ^ 1024 <=? d then "Infinity" else positive_to_string d.

(** [Number::toString] of an integer-valued number. *)
Definition number_to_string (n : Z) : string :=
  if n =? 0 then "0"
  else if n <? 0 then "-" ++ magnitude_to_string (- n)
  else magnitude_to_string n.

(** Whether an object has an own property [k], whatever its value. *)
Definition has_own (k : string) (props : list (string * value)) : bool :=
  existsb (fun kv => String.eqb k (fst kv)) props.

(** String conversion, as a template literal [`${v}`] performs it.  An
    array is joined with commas, its [undefined] and [null] entries printed
    as nothing.  An object is printed by [Object.prototype.toString], unless
    an own [toString] property hides that method: a value of the manifest is
    never a function, the inherited [valueOf] returns the object itself, and
    the conversion throws. *)
Fixpoint to_string (v : value) : result string :=
  match v with
  | VUndefined => Ok "undefined"
  | VNull => Ok "null"
  | VBool true => Ok "true"
  | VBool false => Ok "false"
  | VNum n => Ok (number_to_string n)
  | VStr s => Ok s
  | VArr xs =>
      strs <- (fix each (xs : list value) : result (list string) :=
                 match xs with
                 | [] => Ok []
                 | x :: rest =>
                     str <- (if nullish x then Ok "" else to_string x) ;;
                     strs <- each rest ;;
                     Ok (str :: strs)
                 end) xs ;;
      Ok (join "," strs)
  | VObj props =>
      if has_own "toString" props then TypeError else Ok "[object Object]"
  end.

(** A callback handed to [filter]: it may return any value, and may throw. *)
Definition callback := value -> result value.

(** [xs.filter(f)] *)
Fixpoint filter (f : callback) (xs : list value) : result (list value) :=
  match xs with
  | [] => Ok []
  | x :: xs' =>
      b <- f x ;;
      rest <- filter f xs' ;;
      Ok (if truthy b then x :: rest else rest)
  end.

End Js.
Import Js.

(* ================================================================= *)
(** ** Document nodes ([mdast-builder]) *)

Module Mdast.

(** The nodes the program builds.  A builder that is given a single child
    wraps it into a one-element list of children, as [mdast-builder] does;
    its [heading] throws on a depth below 1. *)
Inductive node : Type :=
| Html (v : string)
| Heading (depth : Z) (children : list node)
| InlineCode (v : value)
| Text (v : value)
| Table (align : list (option string)) (children : list node)
| TableRow (children : list node)
| TableCell (children : list node)
| Root (children : list node).

Definition html (v : string) : node := Html v.
Definition heading (depth : Z) (kids : list node) : result node :=
  if depth <? 1 then TypeError else Ok (Heading depth kids).
Definition inlineCode (v : value) : node := InlineCode v.
Definition text (v : value) : node := Text v.
Definition table (align : list (option string)) (kids : list node) : node := Table align kids.
Definition tableRow (kids : list node) : node := TableRow kids.
Definition tableCell (kids : list node) : node := TableCell kids.
Definition root (kids : list node) : node := Root kids.

End Mdast.
Import Mdast.

(* ================================================================= *)
(** ** The predicate and combinator helpers ([lib/fp.js]) *)

Module Fp.

(** Modelled from the spec: [identity] of [lib/fp.js], a module whose source
    is missing; the identity function ("row filtering bypassed
    ([opts.filter = identity])", "drop any resulting falsy/absent entries"). *)
Definition identity {A} (x : A) : A := x.

(** Modelled from the spec: [compose] of [lib/fp.js], "ordinary function
    composition"; [xs.map(compose(g, f)) === xs.map(f).map(g)]. *)
Definition compose {A B C} (g : B -> C) (f : A -> B) : A -> C :=
  fun x => g (f x).

(** Modelled from the spec: [not] of [lib/fp.js], the "negation" of a
    predicate. *)
Definition not (p : callback) : callback :=
  fun x => b <- p x ;; Ok (VBool (negb (truthy b))).

(** Modelled from the spec: [or] of [lib/fp.js], the "disjunction" of two
    predicates ([p(x) || q(x)]). *)
Definition or (p q : callback) : callback :=
  fun x => a <- p x ;; if truthy a then Ok a else q x.

(** Modelled from the spec: [isPrivate] of [lib/fp.js]; a member's
    [privacy] is one of public, protected, private and "absence = public".
    The filter is applied before absent entries are dropped (it "handles
    optional single-valued fields such as [superclass], which may be entirely
    absent"), so the predicate reads the tag of an absent row as absent. *)
Definition isPrivate : callback :=
  fun x => Ok (VBool (is_str (opt_prop x "privacy") "private")).

(** Modelled from the spec: [isProtected] of [lib/fp.js], as [isPrivate]. *)
Definition isProtected : callback :=
  fun x => Ok (VBool (is_str (opt_prop x "privacy") "protected")).

(** Modelled from the spec: [kindIs] of [lib/fp.js], the "kind-equality"
    predicate used to partition members and declarations by [kind]. *)
Definition kindIs (test : string) : callback :=
  fun x => Ok (VBool (is_str (opt_prop x "kind") test)).

(** Modelled from the spec: [isLengthy] of [lib/fp.js], the
    "emptiness/length check"; it is only applied to arrays. *)
Definition isLengthy {A} (xs : list A) : bool :=
  negb (Nat.eqb (List.length xs) 0).

(** Modelled from the spec: [repeat] of [lib/fp.js]; [repeat(n, x)] is the
    array of [n] copies of [x] that gives a table its alignment metadata,
    "derived purely from the column list length". *)
Definition repeat {A} (n : nat) (x : A) : list A := List.repeat x n.

(** Modelled from the spec: the upper-case form of a letter, for [capital]
    of [lib/fp.js]. *)
Definition upcase (c : ascii) : ascii :=
  let n := nat_of_ascii c in
  if (Nat.leb 97 n && Nat.leb n 122)%bool then ascii_of_nat (n - 32) else c.

(** Modelled from the spec: [capital] of [lib/fp.js], "capitalize(name)":
    the first letter in upper case. *)
Definition capital (s : string) : string :=
  match s with
  | EmptyString => EmptyString
  | String c rest => String (upcase c) rest
  end.

End Fp.

(* ================================================================= *)
(** ** Descriptors and columns *)

Module Descriptor.

(** [{ heading, get, cellType }]; [cellType] may be missing. *)
Record t : Type := make {
  heading : string;
  get : value -> result value;
  cellType : option (value -> result node)
}.

End Descriptor.

Module Column.

(** [{ heading, cellType, values }] *)
Record t : Type := make {
  heading : string;
  cellType : value -> result node;
  values : list value
}.

End Column.

(** A column specification: a bare field name or a descriptor object. *)
Inductive colspec : Type :=
| Name (name : string)
| Desc (d : Descriptor.t).

(** The two cell formatters the program uses, as fallible functions. *)
Definition text_cell : value -> result node := fun v => Ok (text v).
Definition inlineCode_cell : value -> result node := fun v => Ok (inlineCode v).

Definition line : node := html "<hr/>".

(** [`${param?.name}${param?.type?.text ? `: ${param.type.text}` : ''}`] *)
Definition formatParameter (param : value) : result string :=
  name <- to_string (opt_prop param "name") ;;
  type <- (if truthy (opt_prop (opt_prop param "type") "text")
           then t <- to_string (get_prop (get_prop param "type") "text") ;;
                Ok (": " ++ t)%string
           else Ok "") ;;
  Ok (name ++ type)%string.

Definition formatParameters (x : value) : result value :=
  let ps := opt_prop x "parameters" in
  if nullish ps then Ok VUndefined
  else
    params <- array_of ps ;;
    shown <- mapM formatParameter params ;;
    Ok (VStr (join ", " shown)).

Definition DECLARATION : Descriptor.t :=
  Descriptor.make "Declaration"
    (fun x => d <- prop x "declaration" ;; Ok (coalesce (opt_prop d "name") (VStr "")))
    None.
Definition DEFAULT : Descriptor.t :=
  Descriptor.make "Default" (fun x => prop x "default") (Some inlineCode_cell).
Definition ATTR_FIELD : Descriptor.t :=
  Descriptor.make "Field" (fun x => prop x "fieldName") None.
Definition INHERITANCE : Descriptor.t :=
  Descriptor.make "Inherited From"
    (fun x => d <- prop x "inheritedFrom" ;; Ok (coalesce (opt_prop d "name") (VStr "")))
    None.
Definition MODULE : Descriptor.t :=
  Descriptor.make "Module"
    (fun x => d <- prop x "declaration" ;; Ok (coalesce (opt_prop d "module") (VStr "")))
    None.
Definition PACKAGE : Descriptor.t :=
  Descriptor.make "Package"
    (fun x => d <- prop x "declaration" ;; Ok (coalesce (opt_prop d "package") (VStr "")))
    None.
Definition PARAMETERS : Descriptor.t :=
  Descriptor.make "Parameters" formatParameters (Some inlineCode_cell).
Definition RETURN : Descriptor.t :=
  Descriptor.make "Return"
    (fun x => r <- prop x "return" ;;
              Ok (coalesce (opt_prop (opt_prop r "type") "text") r))
    (Some inlineCode_cell).
Definition TYPE : Descriptor.t :=
  Descriptor.make "Type"
    (fun x => t <- prop x "type" ;; Ok (coalesce (opt_prop t "text") (VStr "")))
    (Some inlineCode_cell).

(** The render options: [{ headingOffset, private }], each possibly missing. *)
Record Options : Type := {
  headingOffset : option Z;
  private : value
}.

(** [options?.headingOffset ?? 0]; [options] itself may be undefined. *)
Definition offset (options : option Options) : Z :=
  match options with
  | Some o => match headingOffset o with Some n => n | None => 0 end
  | None => 0
  end.

(** [options?.private === lit] *)
Definition private_is (options : option Options) (lit : string) : bool :=
  match options with
  | Some o => is_str (private o) lit
  | None => false
  end.

(** Options -> Declaration -> Heading *)
Definition declarationHeading (options : option Options) (decl : value)
  : result node :=
  let kind := get_prop decl "kind" in
  let name := get_prop decl "name" in
  let tagName := get_prop decl "tagName" in
  label <- to_string kind ;;
  heading (2 + offset options)
    ([text (VStr (label ++ ": ")); inlineCode name]
     ++ (if truthy tagName then [text (VStr ", "); inlineCode tagName] else [])).

(** String -> Descriptor *)
Definition defaultDescriptor (name : string) : Descriptor.t :=
  Descriptor.make (Fp.capital name) (fun x => Ok (opt_prop x name)) None.

(** String|Descriptor -> Descriptor *)
Definition getDescriptor (x : colspec) : Descriptor.t :=
  match x with
  | Name name => defaultDescriptor name
  | Desc d => d
  end.

(** [Declaration] -> Descriptor -> Column; the destructuring
    [{ heading, get, cellType = text }] supplies the default formatter. *)
Definition getColumn (decls : list value) (d : Descriptor.t) : result Column.t :=
  let cellType := match Descriptor.cellType d with
                  | Some f => f
                  | None => text_cell
                  end in
  values <- mapM (Descriptor.get d) decls ;;
  Ok (Column.make (Descriptor.heading d) cellType values).

(** Column -> Cell *)
Definition getHeading (x : Column.t) : node :=
  tableCell [text (VStr (Column.heading x))].

(** Int -> Column -> Cell; [values[i]] is [undefined] past the end. *)
Definition getCell (i : nat) (c : Column.t) : result node :=
  let v := nth i (Column.values c) VUndefined in
  if truthy v
  then cell <- Column.cellType c v ;; Ok (tableCell [cell])
  else Ok (tableCell [text (VStr "")]).

(** [Column] -> (, Int) -> Row [Cell] *)
Definition getRows (columns : list Column.t) (_ : value) (i : nat) : result node :=
  cells <- mapM (getCell i) columns ;; Ok (tableRow cells).

(* ================================================================= *)
(** ** Table assembly *)

(** The fourth argument of the table builder, [{ headingLevel = 3, filter }];
    it defaults to [{ }]. *)
Record TableOpts : Type := {
  headingLevel : option Z;
  filter : option callback
}.

Definition noOpts : TableOpts := {| headingLevel := None; filter := None |}.

(** The callback [identity] handed to [Array.prototype.filter]. *)
Definition identity_cb : callback := fun x => Ok (Fp.identity x).

(** The row filter [by]: an explicit [filter] wins, else the visibility
    policy picks it. *)
Definition by_filter (options : option Options) (opts : TableOpts) : callback :=
  match filter opts with
  | Some f => f
  | None =>
      if private_is options "hidden" then Fp.not Fp.isPrivate
      else if private_is options "details" then Fp.not (Fp.or Fp.isPrivate Fp.isProtected)
      else identity_cb
  end.

(** [const decls = (_decls ?? []).filter(by).filter(identity)] *)
Definition surviving (options : option Options) (opts : TableOpts) (_decls : value)
  : result (list value) :=
  input <- array_of (coalesce _decls (VArr [])) ;;
  kept <- Js.filter (by_filter options opts) input ;;
  Js.filter identity_cb kept.

(** Options -> String -> [String|Descriptor] -> [Declaration] -> Parent Table *)
Definition tableWithTitle (options : option Options)
    (title : string) (names : list colspec) (_decls : value) (opts : TableOpts)
  : result (list node) :=
  decls <- surviving options opts _decls ;;
  if negb (Fp.isLengthy decls) then Ok []
  else
    columns <- mapM (Fp.compose (getColumn decls) getDescriptor) names ;;
    contentRows <- mapM_indexed (getRows columns) 0 decls ;;
    titleHeading <-
      heading
        ((match headingLevel opts with Some l => l | None => 3 end) + offset options)
        [text (VStr title)] ;;
    Ok [ titleHeading;
         table (Fp.repeat (List.length columns) None)
           (tableRow (map getHeading columns) :: contentRows) ].

(* ================================================================= *)
(** ** Declaration sections and module documents *)

(** The truth value of [xs.length]. *)
Definition nonempty {A} (xs : list A) : bool :=
  match xs with
  | [] => false
  | _ :: _ => true
  end.

(** [xs.filter(identity)] on an array whose entries are nodes or [null]. *)
Fixpoint filter_identity (xs : list (option node)) : list node :=
  match xs with
  | [] => []
  | Some n :: rest => n :: filter_identity rest
  | None :: rest => filter_identity rest
  end.

Definition fieldColumns : list colspec :=
  [Name "name"; Name "privacy"; Desc TYPE; Desc DEFAULT; Name "description"; Desc INHERITANCE].
Definition methodColumns : list colspec :=
  [Name "name"; Name "privacy"; Name "description"; Desc PARAMETERS; Desc RETURN; Desc INHERITANCE].
Definition referenceColumns : list colspec :=
  [Name "name"; Name "module"; Name "package"].

Definition parameterColumns : list colspec :=
  [Name "name"; Desc TYPE; Desc DEFAULT; Name "description"].
Definition eventColumns : list colspec :=
  [Name "name"; Desc TYPE; Name "description"; Desc INHERITANCE].
Definition attributeColumns : list colspec :=
  [Name "name"; Desc ATTR_FIELD; Desc INHERITANCE].
Definition cssPropertyColumns : list colspec :=
  [Name "name"; Desc DEFAULT; Name "description"].
Definition partColumns : list colspec := [Name "name"; Name "description"].
Definition slotColumns : list colspec := [Name "name"; Name "description"].
Definition variableColumns : list colspec :=
  [Name "name"; Name "description"; Desc TYPE].
Definition functionColumns : list colspec :=
  [Name "name"; Name "description"; Desc PARAMETERS; Desc RETURN].
Definition exportColumns : list colspec :=
  [Name "kind"; Name "name"; Desc DECLARATION; Desc MODULE; Desc PACKAGE].

Definition detailsOpen : node := html "<details><summary>Private API</summary>".
Definition detailsClose : node := html "</details>".

Definition unfiltered : TableOpts := {| headingLevel := None; filter := Some identity_cb |}.

(** [['mixin', 'class'].includes(kind)] *)
Definition isMixinOrClass (kind : value) : bool :=
  (is_str kind "mixin" || is_str kind "class")%bool.

(** The members that are private or protected:
    [xs.filter(or(isPrivate, isProtected))]. *)
Definition restricted (xs : list value) : result (list value) :=
  Js.filter (Fp.or Fp.isPrivate Fp.isProtected) xs.

(** The main part of a declaration's section: the array literal [nodes]
    before anything is pushed onto it. *)
Definition mainNodes (options : option Options) (decl kind : value)
    (fields methods : list value) : result (list node) :=
  let makeTable := tableWithTitle options in
  let makeHeading := declarationHeading options in
  declHeading <-
    (if negb (isMixinOrClass kind) then Ok None
     else h <- makeHeading decl ;; Ok (Some h)) ;;
  superclass <- makeTable "Superclass" referenceColumns (VArr [get_prop decl "superclass"]) noOpts ;;
  mixins <- makeTable "Mixins" referenceColumns (get_prop decl "mixins") noOpts ;;
  parameters <-
    (if is_str kind "mixin"
     then makeTable "Parameters" parameterColumns (get_prop decl "parameters") noOpts
     else Ok []) ;;
  fieldsT <- makeTable "Fields" fieldColumns (VArr fields) noOpts ;;
  methodsT <- makeTable "Methods" methodColumns (VArr methods) noOpts ;;
  events <- makeTable "Events" eventColumns (get_prop decl "events") noOpts ;;
  attributes <- makeTable "Attributes" attributeColumns (get_prop decl "attributes") noOpts ;;
  cssProperties <- makeTable "CSS Properties" cssPropertyColumns
                     (get_prop decl "cssProperties") noOpts ;;
  parts <- makeTable "Parts" partColumns (get_prop decl "parts") noOpts ;;
  slots <- makeTable "Slots" slotColumns (get_prop decl "slots") noOpts ;;
  Ok (filter_identity
        (declHeading
         :: map Some (superclass ++ mixins ++ parameters ++ fieldsT ++ methodsT
                      ++ events ++ attributes ++ cssProperties ++ parts ++ slots))).

(** The test that guards the Private API block. *)
Definition hasPrivateApi (options : option Options) (fields methods : list value)
  : result bool :=
  if private_is options "details" then
    pf <- restricted fields ;;
    if Fp.isLengthy pf then Ok true
    else pm <- restricted methods ;; Ok (Fp.isLengthy pm)
  else Ok false.

(** What is pushed onto [nodes] when the guard holds. *)
Definition privateApi (options : option Options) (fields methods : list value)
  : result (list node) :=
  let makeTable := tableWithTitle options in
  pf <- restricted fields ;;
  fieldsT <- makeTable "Fields" fieldColumns (VArr pf) unfiltered ;;
  pm <- restricted methods ;;
  methodsT <- makeTable "Methods" methodColumns (VArr pm) unfiltered ;;
  Ok ([detailsOpen] ++ fieldsT ++ methodsT ++ [detailsClose]).

(** The callback of [declarations.flatMap]: the section of one declaration. *)
Definition declarationSection (options : option Options) (decl : value)
  : result (list node) :=
  kind <- prop decl "kind" ;;
  let members := default_to (VArr []) (get_prop decl "members") in
  ms <- array_of members ;;
  fields <- Js.filter (Fp.kindIs "field") ms ;;
  methods <- Js.filter (Fp.kindIs "method") ms ;;
  nodes <- mainNodes options decl kind fields methods ;;
  guard <- hasPrivateApi options fields methods ;;
  nodes <- (if guard
            then pushed <- privateApi options fields methods ;; Ok (nodes ++ pushed)
            else Ok nodes) ;;
  Ok (if nonempty nodes then nodes ++ [line] else nodes).

Definition level2 : TableOpts := {| headingLevel := Some 2; filter := None |}.

(** [makeModuleDoc(mod, options)]: [None] is the bare [return;]. *)
Definition makeModuleDoc (mod_ : value) (options : option Options)
  : result (option (list node)) :=
  let declarations := coalesce (opt_prop mod_ "declarations") (VArr []) in
  let exports := coalesce (opt_prop mod_ "exports") (VArr []) in
  dlen <- prop declarations "length" ;;
  elen <- prop exports "length" ;;
  if (negb (truthy dlen) && negb (truthy elen))%bool then Ok None
  else
    let headingOffset := offset options in
    let makeTable := tableWithTitle options in
    ds <- array_of declarations ;;
    variables <- Js.filter (Fp.kindIs "variable") ds ;;
    functions <- Js.filter (Fp.kindIs "function") ds ;;
    path <- prop mod_ "path" ;;
    pathHeading <- heading (1 + headingOffset) [inlineCode path; text (VStr ":")] ;;
    sections <- mapM (declarationSection options) ds ;;
    variablesT <- makeTable "Variables" variableColumns (VArr variables) level2 ;;
    functionsT <- makeTable "Functions" functionColumns (VArr functions) level2 ;;
    exportsT <- makeTable "Exports" exportColumns (get_prop mod_ "exports") level2 ;;
    Ok (Some (filter_identity (map Some
          ([pathHeading]
           ++ List.concat sections
           ++ variablesT
           ++ (if nonempty variables then [line] else [])
           ++ functionsT
           ++ (if nonempty functions then [line] else [])
           ++ exportsT)))).

(** What [flatMap] makes of one module's result: an array is spliced in, the
    [undefined] of an empty module stays as one entry. *)
Definition spliced (doc : option (list node)) : list (option node) :=
  match doc with
  | Some nodes => map Some nodes
  | None => [None]
  end.

(** [const tree = root(manifest.modules.flatMap(...).filter(identity))] *)
Definition tree (manifest : value) (options : option Options) : result node :=
  modules <- prop manifest "modules" ;;
  ms <- array_of modules ;;
  docs <- mapM (fun x => makeModuleDoc x options) ms ;;
  Ok (root (filter_identity (List.concat (map spliced docs)))).

(** Renders a custom elements manifest as Markdown; [serialize] is the
    external text serializer of [lib/serialize.js]. *)
Definition customElementsManifestToMarkdown (serialize : node -> result string)
    (manifest : value) (options : option Options) : result string :=
  t <- tree manifest options ;; serialize t.

(* ================================================================= *)
(** ** Reading the embedding: pure counterparts of the predicates *)

Definition is_private (x : value) : bool := is_str (opt_prop x "privacy") "private".
Definition is_protected (x : value) : bool := is_str (opt_prop x "privacy") "protected".
Definition is_restricted (x : value) : bool := (is_private x || is_protected x)%bool.
Definition is_kind (k : string) (x : value) : bool := is_str (opt_prop x "kind") k.

(** The depth of the heading of a table section:
    [headingLevel + (options?.headingOffset ?? 0)], [headingLevel] being 3
    by default. *)
Definition headingDepth (options : option Options) (opts : TableOpts) : Z :=
  (match headingLevel opts with Some l => l | None => 3 end) + offset options.

(** The rows a visibility policy lets through, before absent rows are
    dropped. *)
Definition keeps (options : option Options) (x : value) : bool :=
  if private_is options "hidden" then negb (is_private x)
  else if private_is options "details" then negb (is_restricted x)
  else truthy x.

(** A callback [f] that never throws and whose result has the truth value
    [p]. *)
Definition decides (f : callback) (p : value -> bool) : Prop :=
  forall x, exists b, f x = Ok b /\ truthy b = p x.

(** The heading of a table section titled [title]. *)
Definition titled (title : string) (n : node) : Prop :=
  exists depth, n = Heading depth [Text (VStr title)].

(** The number of data rows of every table that follows a heading titled
    [title], in document order. *)
Fixpoint dataRowCounts (title : string) (nodes : list node) : list nat :=
  match nodes with
  | Heading _ [Text (VStr t)] :: ((Table _ (_ :: body) :: _) as rest) =>
      if String.eqb t title
      then List.length body :: dataRowCounts title rest
      else dataRowCounts title rest
  | _ :: rest => dataRowCounts title rest
  | [] => []
  end.

(** A column specification that cannot throw on the rows [rows]: its
    extractor returns on each of them and its formatter returns on every
    value. *)
Definition total_on (rows : list value) (c : colspec) : Prop :=
  (forall x, In x rows -> returns (Descriptor.get (getDescriptor c) x)) /\
  (forall f v, Descriptor.cellType (getDescriptor c) = Some f -> returns (f v)).

(** A column specification whose extractor returns on every row that is not
    falsy, and whose formatter returns on every value. *)
Definition tolerant (c : colspec) : Prop :=
  (forall x, truthy x = true -> returns (Descriptor.get (getDescriptor c) x)) /\
  (forall f v, Descriptor.cellType (getDescriptor c) = Some f -> returns (f v)).

(** Raw markup: the separator and the two ends of the Private API block. *)
Definition is_html (n : node) : Prop :=
  match n with
  | Html _ => True
  | _ => False
  end.

(** The cell of a missing value. *)
Definition emptyCell : node := TableCell [Text (VStr "")].

(** A table cell holds exactly one node. *)
Definition is_cell (n : node) : Prop := exists kid, n = TableCell [kid].

(** A [declarations] or [exports] field with nothing in it: missing, [null]
    or the empty array. *)
Definition no_entries (v : value) : bool :=
  match v with
  | VUndefined | VNull | VArr [] => true
  | _ => false
  end.

(** The nodes a module's result stands for. *)
Definition nodes_of (doc : option (list node)) : list node :=
  match doc with
  | Some nodes => nodes
  | None => []
  end.

(* ================================================================= *)
(** ** Well-typed, partially populated manifests *)

(** An optional array-valued field: missing, or an array. *)
Definition optional_array (v : value) : bool :=
  match v with
  | VUndefined | VArr _ => true
  | _ => false
  end.

Definition is_object (v : value) : bool :=
  match v with
  | VObj _ => true
  | _ => false
  end.

Definition elements (v : value) : list value :=
  match v with
  | VArr xs => xs
  | _ => []
  end.

(** An optional string-valued field: missing, or a string. *)
Definition optional_string (v : value) : bool :=
  match v with
  | VUndefined | VStr _ => true
  | _ => false
  end.

(** A parameter: its name and the text of its type are strings, when it has
    them. *)
Definition wf_parameter (p : value) : bool :=
  (optional_string (opt_prop p "name")
   && optional_string (opt_prop (opt_prop p "type") "text"))%bool.

(** A record that may carry [parameters] (a method, a function). *)
Definition wf_callable (x : value) : bool :=
  (is_object x
   && optional_array (get_prop x "parameters")
   && forallb wf_parameter (elements (get_prop x "parameters")))%bool.

Definition wf_declaration (d : value) : bool :=
  (wf_callable d
   && optional_array (get_prop d "members")
   && forallb wf_callable (elements (get_prop d "members"))
   && optional_array (get_prop d "mixins")
   && optional_array (get_prop d "events")
   && optional_array (get_prop d "attributes")
   && optional_array (get_prop d "cssProperties")
   && optional_array (get_prop d "parts")
   && optional_array (get_prop d "slots"))%bool.

Definition wf_module (m : value) : bool :=
  (is_object m
   && optional_array (get_prop m "declarations")
   && forallb wf_declaration (elements (get_prop m "declarations"))
   && optional_array (get_prop m "exports"))%bool.

(* ================================================================= *)
(** ** Observing documents *)




(** The formatter a column specification ends up with in its column. *)
Definition formatter_of (c : colspec) : value -> result node :=
  match Descriptor.cellType (getDescriptor c) with
  | Some f => f
  | None => text_cell
  end.

(** The header cell of a column specification. *)
Definition header_of (c : colspec) : node :=
  TableCell [Text (VStr (Descriptor.heading (getDescriptor c)))].

(** [cell] is what the column specification [c] shows of the row [x]: the
    formatted value when the extracted value is truthy, the empty cell
    otherwise. *)
Definition renders (x : value) (c : colspec) (cell : node) : Prop :=
  exists v, Descriptor.get (getDescriptor c) x = Ok v /\
    if truthy v
    then exists n, formatter_of c v = Ok n /\ cell = TableCell [n]
    else cell = emptyCell.

(** The row counts of a table section built from [rows]: none when no row
    is left, since the section is then omitted. *)
Definition counts (rows : list value) : list nat :=
  if nonempty rows then [List.length rows] else [].

(** A [parameters] field that [formatParameters] cannot map over. *)
Definition unmappable (v : value) : bool :=
  match v with
  | VUndefined | VNull | VArr _ => false
  | _ => true
  end.

(** [xs] is [ys] with some entries left out, the others in their order. *)
Inductive subseq {A : Type} : list A -> list A -> Prop :=
| subseq_nil : subseq [] []
| subseq_skip (y : A) (xs ys : list A) : subseq xs ys -> subseq xs (y :: ys)
| subseq_keep (x : A) (xs ys : list A) : subseq xs ys -> subseq (x :: xs) (x :: ys).

(** A node that, if it is a heading, is the heading of a table of a
    declaration's section: one level below the declaration headings, with
    the title as its only child. *)
Definition sub_heading (options : option Options) (n : node) : Prop :=
  forall depth kids, n = Heading depth kids ->
    depth = 3 + offset options /\ exists title, kids = [Text (VStr title)].

(** The children of a node that has some. *)
Definition children (n : node) : list node :=
  match n with
  | Heading _ kids | Table _ kids | TableRow kids | TableCell kids | Root kids => kids
  | Html _ | InlineCode _ | Text _ => []
  end.

(** The cell that shows [v] as inline code, and the one that shows it as
    plain text; a falsy [v] gives the empty cell. *)
Definition cell_code (v : value) : node :=
  if truthy v then TableCell [InlineCode v] else emptyCell.

Definition cell_text (v : value) : node :=
  if truthy v then TableCell [Text v] else emptyCell.

(** The manifest [{ modules: ms }]. *)
Definition manifest_of (ms : list value) : value := VObj [("modules", VArr ms)].

(* ================================================================= *)
(** ** Sample manifests *)

(** The options [{ headingOffset: off, private: p }]. *)
Definition policy (off : option Z) (p : value) : option Options :=
  Some {| headingOffset := off; private := p |}.

Definition hidden : option Options := policy None (VStr "hidden").
Definition details : option Options := policy None (VStr "details").

(** A field [{ kind: 'field', name, privacy }]. *)
Definition field (name privacy : string) : value :=
  VObj [("kind", VStr "field"); ("name", VStr name); ("privacy", VStr privacy)].

(** A class with two public fields and one private field. *)
Definition sampleClass : value :=
  VObj [("kind", VStr "class"); ("name", VStr "MyElement");
        ("members", VArr [field "a" "public"; field "b" "public"; field "c" "private"])].

Definition sampleModule : value :=
  VObj [("path", VStr "my-element.js"); ("declarations", VArr [sampleClass])].

(** A module with neither declarations nor exports. *)
Definition emptyModule : value :=
  VObj [("path", VStr "empty.js"); ("declarations", VArr []); ("exports", VArr [])].

Definition sampleManifest : value :=
  VObj [("modules", VArr [emptyModule; sampleModule])].

(** An event that carries a privacy tag, which the schema does not give to
    events. *)
Definition privateEvent : value :=
  VObj [("name", VStr "changed"); ("privacy", VStr "private")].

Definition eventfulClass : value :=
  VObj [("kind", VStr "class"); ("name", VStr "Emitter"); ("events", VArr [privateEvent])].

(** A module whose only export carries a privacy tag. *)
Definition taggedExportModule : value :=
  VObj [("path", VStr "index.js");
        ("exports", VArr [VObj [("kind", VStr "js"); ("name", VStr "x");
                                ("privacy", VStr "private")]])].

(** A module whose only declaration is a variable tagged private. *)
Definition taggedVariableModule : value :=
  VObj [("path", VStr "state.js");
        ("declarations",
         VArr [VObj [("kind", VStr "variable"); ("name", VStr "v");
                     ("privacy", VStr "private")]])].

(** A module with one variable and one function. *)
Definition plainModule : value :=
  VObj [("path", VStr "util.js");
        ("declarations",
         VArr [VObj [("kind", VStr "variable"); ("name", VStr "v")];
               VObj [("kind", VStr "function"); ("name", VStr "f");
                     ("parameters", VArr [VObj [("name", VStr "x")]])]])].

(* ================================================================= *)
(** ** Basic facts about results, [mapM] and [filter] *)

Unset Implicit Arguments.

Lemma bind_Ok {A B} (m : result A) (k : A -> result B) (b : B) :
  bind m k = Ok b -> exists a, m = Ok a /\ k a = Ok b.
Proof.
  destruct m as [a|]; simpl; intros H; [exists a; auto | discriminate].
Qed.

(** Splits a hypothesis [x <- m ;; k = Ok r] into its two halves. *)
Ltac inv_bind H :=
  let a := fresh "r" in
  let Ha := fresh "E" in
  apply bind_Ok in H; destruct H as (a & Ha & H).

Lemma heading_Ok depth kids h :
  heading depth kids = Ok h -> h = Heading depth kids /\ 1 <= depth.
Proof.
  unfold heading. destruct (depth <? 1) eqn:D; [discriminate|].
  intros H. injection H as <-. split; [reflexivity|]. apply Z.ltb_ge, D.
Qed.

Lemma heading_valid depth kids :
  1 <= depth -> heading depth kids = Ok (Heading depth kids).
Proof.
  intros D. unfold heading. apply Z.ltb_ge in D. rewrite D. reflexivity.
Qed.

Lemma mapM_length {A B} (f : A -> result B) xs ys :
  mapM f xs = Ok ys -> List.length ys = List.length xs.
Proof.
  revert ys; induction xs as [|x xs IH]; intros ys H; simpl in H.
  - injection H as <-; reflexivity.
  - inv_bind H. inv_bind H. injection H as <-. simpl. f_equal. auto.
Qed.

Lemma mapM_Forall {A B} (f : A -> result B) (P : B -> Prop) xs ys :
  (forall x y, In x xs -> f x = Ok y -> P y) ->
  mapM f xs = Ok ys -> Forall P ys.
Proof.
  revert ys; induction xs as [|x xs IH]; intros ys HP H; simpl in H.
  - injection H as <-; constructor.
  - inv_bind H. inv_bind H. injection H as <-. constructor.
    + eapply HP; [left; reflexivity | eassumption].
    + apply IH; auto. intros; eapply HP; [right|]; eassumption.
Qed.

Lemma mapM_returns {A B} (f : A -> result B) xs :
  (forall x, In x xs -> returns (f x)) -> returns (mapM f xs).
Proof.
  induction xs as [|x xs IH]; intros H; simpl.
  - eexists; reflexivity.
  - destruct (H x) as [y Hy]; [left; reflexivity|].
    destruct IH as [ys Hys]; [intros; apply H; right; assumption|].
    rewrite Hy, Hys. eexists; reflexivity.
Qed.

Lemma mapM_pure {A B} (f : A -> result B) (g : A -> B) xs :
  (forall x, In x xs -> f x = Ok (g x)) -> mapM f xs = Ok (map g xs).
Proof.
  induction xs as [|x xs IH]; intros H; simpl; [reflexivity|].
  rewrite H by (left; reflexivity).
  rewrite IH by (intros; apply H; right; assumption). reflexivity.
Qed.

Lemma mapM_indexed_length {A B} (f : A -> nat -> result B) i xs ys :
  mapM_indexed f i xs = Ok ys -> List.length ys = List.length xs.
Proof.
  revert i ys; induction xs as [|x xs IH]; intros i ys H; simpl in H.
  - injection H as <-; reflexivity.
  - inv_bind H. inv_bind H. injection H as <-. simpl. f_equal. eauto.
Qed.

Lemma mapM_indexed_Forall {A B} (f : A -> nat -> result B) (P : B -> Prop) i xs ys :
  (forall x j y, f x j = Ok y -> P y) ->
  mapM_indexed f i xs = Ok ys -> Forall P ys.
Proof.
  intros HP. revert i ys; induction xs as [|x xs IH]; intros i ys H; simpl in H.
  - injection H as <-; constructor.
  - inv_bind H. inv_bind H. injection H as <-. constructor; eauto.
Qed.

Lemma mapM_indexed_returns {A B} (f : A -> nat -> result B) i xs :
  (forall x j, returns (f x j)) -> returns (mapM_indexed f i xs).
Proof.
  intros H. revert i; induction xs as [|x xs IH]; intros i; simpl.
  - eexists; reflexivity.
  - destruct (H x i) as [y ->]. destruct (IH (S i)) as [ys ->].
    eexists; reflexivity.
Qed.

Lemma filter_decides (f : callback) (p : value -> bool) xs :
  decides f p -> Js.filter f xs = Ok (List.filter p xs).
Proof.
  intros D. induction xs as [|x xs IH]; simpl; [reflexivity|].
  destruct (D x) as (b & -> & Hb). simpl. rewrite IH. simpl.
  rewrite Hb. reflexivity.
Qed.

Lemma decides_identity : decides identity_cb truthy.
Proof. intros x; exists x; split; reflexivity. Qed.

Lemma decides_isPrivate : decides Fp.isPrivate is_private.
Proof. intros x; eexists; split; reflexivity. Qed.

Lemma decides_isProtected : decides Fp.isProtected is_protected.
Proof. intros x; eexists; split; reflexivity. Qed.

Lemma decides_kindIs k : decides (Fp.kindIs k) (is_kind k).
Proof. intros x; eexists; split; reflexivity. Qed.

Lemma decides_not f p : decides f p -> decides (Fp.not f) (fun x => negb (p x)).
Proof.
  intros D x. destruct (D x) as (b & Hb & Hp). unfold Fp.not. rewrite Hb. simpl.
  eexists; split; [reflexivity|]. simpl. rewrite Hp. reflexivity.
Qed.

Lemma decides_or f g p q :
  decides f p -> decides g q -> decides (Fp.or f g) (fun x => (p x || q x)%bool).
Proof.
  intros Df Dg x. destruct (Df x) as (a & Ha & Hp). destruct (Dg x) as (b & Hb & Hq).
  unfold Fp.or. rewrite Ha. simpl. rewrite <- Hp, <- Hq.
  destruct (truthy a) eqn:Ta; simpl.
  - exists a; auto.
  - exists b; auto.
Qed.

Lemma decides_restricted : decides (Fp.or Fp.isPrivate Fp.isProtected) is_restricted.
Proof. apply (decides_or _ _ _ _ decides_isPrivate decides_isProtected). Qed.

(** Without an explicit filter, the row filter decides [keeps]. *)
Lemma decides_by_filter options hl :
  decides (by_filter options {| headingLevel := hl; filter := None |}) (keeps options).
Proof.
  unfold by_filter, keeps; simpl.
  destruct (private_is options "hidden").
  - apply (decides_not _ _ decides_isPrivate).
  - destruct (private_is options "details").
    + apply (decides_not _ _ decides_restricted).
    + apply decides_identity.
Qed.

Lemma restricted_filter xs : restricted xs = Ok (List.filter is_restricted xs).
Proof. apply filter_decides, decides_restricted. Qed.

(** The rows that reach a table when no explicit filter is given. *)
Lemma surviving_policy options hl rows :
  surviving options {| headingLevel := hl; filter := None |} (VArr rows)
  = Ok (List.filter truthy (List.filter (keeps options) rows)).
Proof.
  unfold surviving. simpl.
  rewrite (filter_decides _ _ _ (decides_by_filter options hl)). simpl.
  apply filter_decides, decides_identity.
Qed.

(** With the identity filter every row that is not falsy reaches the table. *)
Lemma surviving_unfiltered options rows :
  surviving options unfiltered (VArr rows) = Ok (List.filter truthy rows).
Proof.
  unfold surviving, unfiltered, by_filter. simpl.
  rewrite (filter_decides _ _ _ decides_identity). simpl.
  rewrite (filter_decides _ _ _ decides_identity).
  f_equal. induction rows as [|x xs IH]; simpl; [reflexivity|].
  destruct (truthy x) eqn:T; simpl; [rewrite T|]; congruence.
Qed.

Lemma filter_length_le {A} (p : A -> bool) xs :
  (List.length (List.filter p xs) <= List.length xs)%nat.
Proof.
  induction xs as [|x xs IH]; simpl; [lia|]. destruct (p x); simpl; lia.
Qed.

Lemma filter_filter_comm {A} (p q : A -> bool) xs :
  List.filter p (List.filter q xs) = List.filter q (List.filter p xs).
Proof.
  induction xs as [|x xs IH]; simpl; [reflexivity|].
  destruct (q x) eqn:Q, (p x) eqn:P; simpl; rewrite ?Q, ?P, IH; reflexivity.
Qed.

Lemma filter_all {A} (p : A -> bool) xs :
  Forall (fun x => p x = true) xs -> List.filter p xs = xs.
Proof.
  induction 1 as [|x xs Hx _ IH]; simpl; [reflexivity|]. rewrite Hx, IH. reflexivity.
Qed.

(* ================================================================= *)
(** ** Visibility policies *)

Lemma filter_negb_or {A} (p q : A -> bool) xs :
  List.filter (fun x => negb (p x || q x)) xs
  = List.filter (fun x => negb (q x)) (List.filter (fun x => negb (p x)) xs).
Proof.
  induction xs as [|x xs IH]; simpl; [reflexivity|].
  destruct (p x) eqn:P; simpl; [|destruct (q x) eqn:Q; simpl; rewrite ?Q]; rewrite IH; reflexivity.
Qed.

Lemma filter_idem {A} (p : A -> bool) xs :
  List.filter p (List.filter p xs) = List.filter p xs.
Proof.
  apply filter_all, Forall_forall. intros x Hx. apply filter_In in Hx. tauto.
Qed.

Lemma filter_sub {A} (p : A -> bool) xs x : In x (List.filter p xs) -> In x xs.
Proof. intros H. apply filter_In in H. tauto. Qed.

(* ================================================================= *)
(** ** The shape of a table section *)

Lemma getCell_is_cell i c n : getCell i c = Ok n -> is_cell n.
Proof.
  unfold getCell. destruct (truthy _); intros H.
  - inv_bind H. injection H as <-. eexists; reflexivity.
  - injection H as <-. eexists; reflexivity.
Qed.

Lemma getRows_row columns x i r :
  getRows columns x i = Ok r ->
  exists cells, r = TableRow cells /\ List.length cells = List.length columns
                /\ Forall is_cell cells.
Proof.
  unfold getRows. intros H. inv_bind H. injection H as <-.
  eexists; split; [reflexivity|]. split.
  - eapply mapM_length; eassumption.
  - eapply mapM_Forall; [|eassumption]. intros c n _. apply getCell_is_cell.
Qed.

Lemma tableWithTitle_empty options title names _decls opts :
  surviving options opts _decls = Ok [] ->
  tableWithTitle options title names _decls opts = Ok [].
Proof. unfold tableWithTitle. intros ->. reflexivity. Qed.

(** What the builder returns when some row survives. *)
Lemma tableWithTitle_inv options title names _decls opts rows nodes :
  surviving options opts _decls = Ok rows -> rows <> [] ->
  tableWithTitle options title names _decls opts = Ok nodes ->
  exists columns body,
    mapM (Fp.compose (getColumn rows) getDescriptor) names = Ok columns /\
    mapM_indexed (getRows columns) 0 rows = Ok body /\
    nodes = [ Heading ((match headingLevel opts with Some l => l | None => 3 end)
                       + offset options) [Text (VStr title)];
              Table (Fp.repeat (List.length columns) None)
                (TableRow (map getHeading columns) :: body) ].
Proof.
  unfold tableWithTitle. intros -> Hne H. simpl in H.
  destruct rows as [|x rows]; [congruence|]. cbn [Fp.isLengthy List.length Nat.eqb negb] in H.
  inv_bind H. inv_bind H. inv_bind H. injection H as <-.
  apply heading_Ok in E1. destruct E1 as [-> _]. eauto.
Qed.


(** What the builder returns, whatever survives. *)
Lemma tableWithTitle_cases options title names _decls opts nodes :
  tableWithTitle options title names _decls opts = Ok nodes ->
  exists rows, surviving options opts _decls = Ok rows /\
    ((rows = [] /\ nodes = []) \/
     (rows <> [] /\ exists depth align header body,
        nodes = [Heading depth [Text (VStr title)]; Table align (TableRow header :: body)]
        /\ List.length align = List.length names
        /\ List.length header = List.length names
        /\ List.length body = List.length rows
        /\ Forall (fun r => exists cells, r = TableRow cells
                              /\ List.length cells = List.length names
                              /\ Forall is_cell cells) body)).
Proof.
  intros H. destruct (surviving options opts _decls) as [rows|] eqn:S.
  2:{ unfold tableWithTitle in H. rewrite S in H. discriminate. }
  exists rows. split; [reflexivity|].
  destruct rows as [|x rows].
  - left. rewrite (tableWithTitle_empty _ _ _ _ _ S) in H. injection H as <-. auto.
  - right. split; [discriminate|].
    destruct (tableWithTitle_inv _ _ _ _ _ _ _ S ltac:(discriminate) H)
      as (columns & body & Hc & Hb & ->).
    pose proof (mapM_length _ _ _ Hc) as Lc.
    do 4 eexists. split; [reflexivity|].
    split; [unfold Fp.repeat; rewrite repeat_length; exact Lc|].
    split; [rewrite length_map; exact Lc|].
    split; [eapply mapM_indexed_length; eassumption|].
    eapply mapM_indexed_Forall; [|eassumption].
    intros y j r Hr. apply getRows_row in Hr. rewrite <- Lc. exact Hr.
Qed.

(** The builder returns whenever its column specifications cannot throw on
    the surviving rows and, if there are any, the depth of its heading is 1
    at least. *)
Lemma tableWithTitle_returns options title names _decls opts rows :
  surviving options opts _decls = Ok rows ->
  (rows <> [] -> 1 <= headingDepth options opts) ->
  Forall (total_on rows) names ->
  returns (tableWithTitle options title names _decls opts).
Proof.
  intros S D T. unfold tableWithTitle. rewrite S. simpl.
  destruct rows as [|row rows'] eqn:Erows; [eexists; reflexivity|].
  rewrite <- Erows in *. cbn [Fp.isLengthy List.length Nat.eqb negb].
  assert (Dv : 1 <= headingDepth options opts) by (apply D; congruence).
  replace (Fp.isLengthy rows) with true by (rewrite Erows; reflexivity).
  cbn [negb].
  assert (Hc : returns (mapM (Fp.compose (getColumn rows) getDescriptor) names)
               /\ forall columns,
                    mapM (Fp.compose (getColumn rows) getDescriptor) names = Ok columns ->
                    Forall (fun c => forall v, returns (Column.cellType c v)) columns).
  { split.
    - apply mapM_returns. intros c Hc. rewrite Forall_forall in T.
      destruct (T c Hc) as [Tg _]. unfold Fp.compose, getColumn.
      destruct (mapM_returns (Descriptor.get (getDescriptor c)) rows Tg) as [vs ->].
      eexists; reflexivity.
    - intros columns Hcols. eapply mapM_Forall; [|exact Hcols].
      intros c col Hc Hcol. rewrite Forall_forall in T.
      destruct (T c Hc) as [_ Tf]. unfold Fp.compose, getColumn in Hcol.
      inv_bind Hcol. injection Hcol as <-. simpl. intros v.
      destruct (Descriptor.cellType (getDescriptor c)) as [f|] eqn:F.
      + eapply Tf; reflexivity.
      + eexists; reflexivity. }
  destruct Hc as [[columns Hcols] Hf]. specialize (Hf _ Hcols).
  rewrite Hcols. simpl.
  destruct (mapM_indexed_returns (getRows columns) 0 rows) as [body ->].
  { intros x j. unfold getRows.
    destruct (mapM_returns (getCell j) columns) as [cells ->].
    - intros c Hc. rewrite Forall_forall in Hf. unfold getCell.
      destruct (truthy _); [|eexists; reflexivity].
      destruct (Hf c Hc (nth j (Column.values c) VUndefined)) as [n ->].
      eexists; reflexivity.
    - eexists; reflexivity. }
  cbn [bind]. unfold headingDepth in Dv. rewrite (heading_valid _ _ Dv).
  eexists; reflexivity.
Qed.

(* ================================================================= *)
(** ** The shape of a declaration's section *)

Lemma filter_identity_Some xs : filter_identity (map Some xs) = xs.
Proof. induction xs as [|x xs IH]; simpl; congruence. Qed.

Lemma isLengthy_filter {A} (p : A -> bool) xs :
  Fp.isLengthy (List.filter p xs) = existsb p xs.
Proof.
  induction xs as [|x xs IH]; [reflexivity|]. simpl.
  destruct (p x); [reflexivity | exact IH].
Qed.

Lemma main_app_nonempty (main fT mT : list node) :
  nonempty (main ++ [detailsOpen] ++ fT ++ mT ++ [detailsClose]) = true.
Proof. destruct main; reflexivity. Qed.

Lemma hasPrivateApi_spec options fields methods :
  hasPrivateApi options fields methods
  = Ok (private_is options "details" && existsb is_restricted (fields ++ methods))%bool.
Proof.
  unfold hasPrivateApi. destruct (private_is options "details"); [|reflexivity].
  rewrite !restricted_filter. simpl. rewrite existsb_app, !isLengthy_filter.
  destruct (existsb is_restricted fields); reflexivity.
Qed.

(** A declaration heading that is built: its kind prints, and its depth is
    1 at least. *)
Lemma declarationHeading_inv options decl h :
  declarationHeading options decl = Ok h ->
  exists label,
    to_string (get_prop decl "kind") = Ok label /\
    1 <= 2 + offset options /\
    h = Heading (2 + offset options)
          ([Text (VStr (label ++ ": ")); InlineCode (get_prop decl "name")]
           ++ (if truthy (get_prop decl "tagName")
               then [Text (VStr ", "); InlineCode (get_prop decl "tagName")]
               else [])).
Proof.
  unfold declarationHeading. intros H. inv_bind H.
  apply heading_Ok in H. destruct H as [-> D]. eauto.
Qed.

Lemma mainNodes_inv options decl kind fields methods main :
  mainNodes options decl kind fields methods = Ok main ->
  exists hd sc mx pa fT mT ev at_ cs pt sl,
    (if isMixinOrClass kind
     then exists h, declarationHeading options decl = Ok h /\ hd = [h]
     else hd = []) /\
    tableWithTitle options "Superclass" referenceColumns
      (VArr [get_prop decl "superclass"]) noOpts = Ok sc /\
    tableWithTitle options "Mixins" referenceColumns (get_prop decl "mixins") noOpts = Ok mx /\
    (if is_str kind "mixin"
     then tableWithTitle options "Parameters" parameterColumns
            (get_prop decl "parameters") noOpts
     else Ok []) = Ok pa /\
    tableWithTitle options "Fields" fieldColumns (VArr fields) noOpts = Ok fT /\
    tableWithTitle options "Methods" methodColumns (VArr methods) noOpts = Ok mT /\
    tableWithTitle options "Events" eventColumns (get_prop decl "events") noOpts = Ok ev /\
    tableWithTitle options "Attributes" attributeColumns
      (get_prop decl "attributes") noOpts = Ok at_ /\
    tableWithTitle options "CSS Properties" cssPropertyColumns
      (get_prop decl "cssProperties") noOpts = Ok cs /\
    tableWithTitle options "Parts" partColumns (get_prop decl "parts") noOpts = Ok pt /\
    tableWithTitle options "Slots" slotColumns (get_prop decl "slots") noOpts = Ok sl /\
    main = hd ++ sc ++ mx ++ pa ++ fT ++ mT ++ ev ++ at_ ++ cs ++ pt ++ sl.
Proof.
  unfold mainNodes. cbv zeta. intros H. inv_bind H.
  assert (Hd : exists hd,
             (if isMixinOrClass kind
              then exists h, declarationHeading options decl = Ok h /\ hd = [h]
              else hd = [])
             /\ forall tables, filter_identity (r :: map Some tables) = hd ++ tables).
  { destruct (isMixinOrClass kind); cbn [negb] in E.
    - inv_bind E. injection E as <-. exists [r0]. split; [eauto|].
      intros tables. cbn [filter_identity app]. rewrite filter_identity_Some. reflexivity.
    - injection E as <-. exists []. split; [reflexivity|].
      intros tables. cbn [filter_identity app]. apply filter_identity_Some. }
  destruct Hd as (hd & Hhd & Hmain).
  repeat inv_bind H. injection H as <-.
  exists hd. do 10 eexists. split; [exact Hhd|].
  repeat (split; [eassumption|]). apply Hmain.
Qed.

Lemma privateApi_inv options fields methods pushed :
  privateApi options fields methods = Ok pushed ->
  exists fT mT,
    tableWithTitle options "Fields" fieldColumns
      (VArr (List.filter is_restricted fields)) unfiltered = Ok fT /\
    tableWithTitle options "Methods" methodColumns
      (VArr (List.filter is_restricted methods)) unfiltered = Ok mT /\
    pushed = [detailsOpen] ++ fT ++ mT ++ [detailsClose].
Proof.
  unfold privateApi. rewrite !restricted_filter. simpl. intros H.
  inv_bind H. inv_bind H. injection H as <-. eauto.
Qed.

(** The section of a declaration: its main tables, then the Private API
    block when the guard holds, then a separator unless nothing was
    emitted. *)
Lemma declarationSection_inv options decl nodes :
  declarationSection options decl = Ok nodes ->
  exists kind ms main,
    prop decl "kind" = Ok kind /\
    array_of (default_to (VArr []) (get_prop decl "members")) = Ok ms /\
    let fields := List.filter (is_kind "field") ms in
    let methods := List.filter (is_kind "method") ms in
    mainNodes options decl kind fields methods = Ok main /\
    if (private_is options "details" && existsb is_restricted (fields ++ methods))%bool
    then exists pushed, privateApi options fields methods = Ok pushed
                        /\ nodes = (main ++ pushed) ++ [line]
    else nodes = if nonempty main then main ++ [line] else main.
Proof.
  unfold declarationSection. intros H.
  inv_bind H. inv_bind H.
  rewrite (filter_decides _ _ _ (decides_kindIs "field")) in H. simpl in H.
  rewrite (filter_decides _ _ _ (decides_kindIs "method")) in H. simpl in H.
  inv_bind H. rewrite hasPrivateApi_spec in H. simpl in H.
  exists r, r0, r1. split; [assumption|]. split; [assumption|]. simpl.
  split; [assumption|].
  destruct (private_is options "details" && _)%bool.
  - inv_bind H. inv_bind E2. injection E2 as <-. injection H as <-.
    exists r3. split; [assumption|].
    destruct (privateApi_inv _ _ _ _ E3) as (fT & mT & _ & _ & ->).
    rewrite main_app_nonempty. reflexivity.
  - simpl in H. injection H as <-. reflexivity.
Qed.

(** No row reaches a table built from a single absent record. *)
Lemma surviving_absent options hl v :
  truthy v = false ->
  surviving options {| headingLevel := hl; filter := None |} (VArr [v]) = Ok [].
Proof.
  intros F. rewrite surviving_policy. simpl.
  destruct (keeps options v); simpl; rewrite ?F; reflexivity.
Qed.

Lemma table_untitled options title names _decls opts nodes t :
  tableWithTitle options title names _decls opts = Ok nodes ->
  title <> t -> Forall (fun n => ~ titled t n) nodes.
Proof.
  intros H Ht. destruct (tableWithTitle_cases _ _ _ _ _ _ H) as (rows & _ & [[_ ->] | [_ C]]).
  - constructor.
  - destruct C as (depth & align & header & body & -> & _).
    repeat constructor.
    + intros [d E]. injection E as _ E. congruence.
    + intros [d E]. discriminate.
Qed.

Lemma declarationHeading_untitled options decl h t :
  declarationHeading options decl = Ok h -> ~ titled t h.
Proof.
  intros H [d E]. apply declarationHeading_inv in H.
  destruct H as (label & _ & _ & ->).
  injection E as _ E. destruct (truthy _); discriminate.
Qed.

(** The heading part of a section, as [mainNodes_inv] gives it, holds no
    heading titled [t]. *)
Lemma head_untitled options decl (b : bool) hd t :
  (if b then exists h, declarationHeading options decl = Ok h /\ hd = [h]
   else hd = []) ->
  Forall (fun n => ~ titled t n) hd.
Proof.
  destruct b.
  - intros (h & H & ->). repeat constructor. eapply declarationHeading_untitled, H.
  - intros ->. constructor.
Qed.

Lemma html_untitled v t : ~ titled t (Html v).
Proof. intros [d E]. discriminate. Qed.

(** Shows that no node of a concatenation of table sections, declaration
    headings and raw markup is a heading titled [t]. *)
Ltac untitled :=
  repeat first
    [ assumption
    | apply Forall_nil
    | apply html_untitled
    | eapply head_untitled; eassumption
    | eapply table_untitled; [eassumption | discriminate]
    | apply Forall_app; split
    | apply Forall_cons ].

(* ================================================================= *)
(** ** Totality of the builders *)

Lemma truthy_not_nullish x : truthy x = true -> nullish x = false.
Proof. destruct x; simpl; congruence. Qed.

Lemma prop_returns x k : truthy x = true -> prop x k = Ok (get_prop x k).
Proof. intros T. unfold prop. rewrite (truthy_not_nullish _ T). reflexivity. Qed.

Lemma tolerant_Name n : tolerant (Name n).
Proof. split; simpl; [intros; eexists; reflexivity | discriminate]. Qed.

(** Settles [tolerant] for a descriptor that starts by reading a property of
    its row. *)
Ltac tolerant_desc :=
  split; simpl;
  [ intros x T; rewrite (prop_returns _ _ T); simpl; eexists; reflexivity
  | intros f v E; try discriminate; injection E as <-; eexists; reflexivity ].

Lemma tolerant_DECLARATION : tolerant (Desc DECLARATION).
Proof. tolerant_desc. Qed.
Lemma tolerant_DEFAULT : tolerant (Desc DEFAULT).
Proof. tolerant_desc. Qed.
Lemma tolerant_ATTR_FIELD : tolerant (Desc ATTR_FIELD).
Proof. tolerant_desc. Qed.
Lemma tolerant_INHERITANCE : tolerant (Desc INHERITANCE).
Proof. tolerant_desc. Qed.
Lemma tolerant_MODULE : tolerant (Desc MODULE).
Proof. tolerant_desc. Qed.
Lemma tolerant_PACKAGE : tolerant (Desc PACKAGE).
Proof. tolerant_desc. Qed.
Lemma tolerant_RETURN : tolerant (Desc RETURN).
Proof. tolerant_desc. Qed.
Lemma tolerant_TYPE : tolerant (Desc TYPE).
Proof. tolerant_desc. Qed.

Lemma tolerant_total xs c : tolerant c -> total_on (List.filter truthy xs) c.
Proof.
  intros [Tg Tf]. split; [|exact Tf].
  intros x Hx. apply filter_In in Hx. apply Tg. tauto.
Qed.

Lemma to_string_optional_string v :
  optional_string v = true -> returns (to_string v).
Proof. destruct v; try discriminate; intros _; eexists; reflexivity. Qed.

(** Where an optional chain ends in a truthy value, so does the plain one. *)
Lemma opt_chain_truthy p a b :
  truthy (opt_prop (opt_prop p a) b) = true ->
  get_prop (get_prop p a) b = opt_prop (opt_prop p a) b.
Proof.
  unfold opt_prop. destruct (nullish p); [discriminate|].
  destruct (nullish (get_prop p a)); [discriminate | reflexivity].
Qed.

Lemma formatParameter_returns p :
  wf_parameter p = true -> returns (formatParameter p).
Proof.
  unfold wf_parameter, formatParameter. intros W.
  apply andb_prop in W. destruct W as [N T].
  destruct (to_string_optional_string _ N) as [name ->]. cbn [bind].
  destruct (truthy (opt_prop (opt_prop p "type") "text")) eqn:Tr.
  - rewrite (opt_chain_truthy _ _ _ Tr).
    destruct (to_string_optional_string _ T) as [t ->]. eexists; reflexivity.
  - eexists; reflexivity.
Qed.

Lemma formatParameters_returns x :
  wf_callable x = true -> returns (formatParameters x).
Proof.
  unfold wf_callable, formatParameters, opt_prop. intros W.
  rewrite !andb_true_iff in W. destruct W as [[O P] F].
  destruct x; try discriminate. cbn [nullish] in *.
  destruct (get_prop (VObj props) "parameters") as [| | | | |ps|];
    try discriminate; cbn [nullish array_of bind elements] in *.
  - eexists; reflexivity.
  - destruct (mapM_returns formatParameter ps) as [shown ->].
    + intros p Hp. apply formatParameter_returns.
      rewrite forallb_forall in F. auto.
    + eexists; reflexivity.
Qed.

Lemma PARAMETERS_total xs :
  Forall (fun x => wf_callable x = true) xs ->
  total_on (List.filter truthy xs) (Desc PARAMETERS).
Proof.
  intros W. split; simpl.
  - intros x Hx. apply filter_In in Hx. rewrite Forall_forall in W.
    apply formatParameters_returns, W. tauto.
  - intros f v E. injection E as <-. eexists; reflexivity.
Qed.

Lemma total_on_incl rows rows' c :
  incl rows rows' -> total_on rows' c -> total_on rows c.
Proof. intros I [Tg Tf]. split; [intros x Hx; apply Tg, I, Hx | exact Tf]. Qed.

Lemma filter_returns_incl (f : callback) xs :
  (forall x, returns (f x)) ->
  exists ys, Js.filter f xs = Ok ys /\ incl ys xs.
Proof.
  intros T. induction xs as [|x xs (ys & E & I)]; simpl.
  - exists []. split; [reflexivity | apply incl_refl].
  - destruct (T x) as [b ->]. simpl. rewrite E. simpl.
    eexists; split; [reflexivity|].
    destruct (truthy b).
    + apply incl_cons; [left; reflexivity | apply incl_tl, I].
    + apply incl_tl, I.
Qed.

Lemma by_filter_returns options opts :
  (forall f, filter opts = Some f -> forall x, returns (f x)) ->
  forall x, returns (by_filter options opts x).
Proof.
  intros T x. destruct opts as [hl [f|]].
  - unfold by_filter; simpl. apply (T f eq_refl).
  - destruct (decides_by_filter options hl x) as (b & E & _). exists b. exact E.
Qed.

(** The rows that reach a table are rows of the input that are not falsy. *)
Lemma surviving_returns options opts _decls :
  optional_array _decls = true ->
  (forall f, filter opts = Some f -> forall x, returns (f x)) ->
  exists rows, surviving options opts _decls = Ok rows
               /\ incl rows (List.filter truthy (elements _decls)).
Proof.
  intros A T. unfold surviving.
  assert (E : array_of (coalesce _decls (VArr [])) = Ok (elements _decls)).
  { destruct _decls; try discriminate; reflexivity. }
  rewrite E. simpl.
  destruct (filter_returns_incl _ (elements _decls) (by_filter_returns options opts T))
    as (kept & -> & I).
  simpl. rewrite (filter_decides _ _ _ decides_identity). eexists; split; [reflexivity|].
  intros x Hx. apply filter_In in Hx. apply filter_In. split; [apply I|]; tauto.
Qed.

(** Table assembly returns on an absent or array input whose truthy rows
    the column specifications can read. *)
Lemma table_total options title names _decls opts :
  1 <= headingDepth options opts ->
  optional_array _decls = true ->
  (forall f, filter opts = Some f -> forall x, returns (f x)) ->
  Forall (total_on (List.filter truthy (elements _decls))) names ->
  returns (tableWithTitle options title names _decls opts).
Proof.
  intros D A T N.
  destruct (surviving_returns options opts _decls A T) as (rows & S & I).
  eapply tableWithTitle_returns; [exact S | intros _; exact D |].
  eapply Forall_impl; [|exact N]. intros c. apply total_on_incl, I.
Qed.

(** The heading of a class or a mixin is built when its depth is 1 at
    least. *)
Lemma declarationHeading_returns options decl :
  -1 <= offset options ->
  isMixinOrClass (get_prop decl "kind") = true ->
  returns (declarationHeading options decl).
Proof.
  intros D K. unfold declarationHeading.
  destruct (get_prop decl "kind"); try discriminate K. cbn [to_string bind].
  rewrite heading_valid by lia. eexists; reflexivity.
Qed.

Lemma noOpts_filter f : filter noOpts = Some f -> forall x, returns (f x).
Proof. discriminate. Qed.

Lemma level2_filter f : filter level2 = Some f -> forall x, returns (f x).
Proof. discriminate. Qed.

Lemma unfiltered_filter f : filter unfiltered = Some f -> forall x, returns (f x).
Proof. intros E x. injection E as <-. eexists; reflexivity. Qed.

(** Settles that a column list of the program is total on the truthy rows of
    [xs]; [PARAMETERS] needs the rows to be well-typed callables. *)
Ltac columns_total :=
  repeat first
    [ apply Forall_nil
    | apply Forall_cons
    | apply PARAMETERS_total; assumption
    | apply tolerant_total;
      first [ apply tolerant_Name | apply tolerant_DECLARATION | apply tolerant_DEFAULT
            | apply tolerant_ATTR_FIELD | apply tolerant_INHERITANCE
            | apply tolerant_MODULE | apply tolerant_PACKAGE
            | apply tolerant_RETURN | apply tolerant_TYPE ] ].

Lemma Forall_filter {A} (P : A -> Prop) (p : A -> bool) xs :
  Forall P xs -> Forall P (List.filter p xs).
Proof.
  intros H. rewrite Forall_forall in *. intros x Hx. apply H.
  apply filter_In in Hx. tauto.
Qed.

Lemma members_array v :
  optional_array v = true -> array_of (default_to (VArr []) v) = Ok (elements v).
Proof. destruct v; try discriminate; reflexivity. Qed.

Lemma mainNodes_total options decl fields methods :
  -1 <= offset options ->
  optional_array (get_prop decl "mixins") = true ->
  optional_array (get_prop decl "parameters") = true ->
  optional_array (get_prop decl "events") = true ->
  optional_array (get_prop decl "attributes") = true ->
  optional_array (get_prop decl "cssProperties") = true ->
  optional_array (get_prop decl "parts") = true ->
  optional_array (get_prop decl "slots") = true ->
  Forall (fun x => wf_callable x = true) methods ->
  returns (mainNodes options decl (get_prop decl "kind") fields methods).
Proof.
  intros D Mx Pa Ev At Cs Pt Sl W. unfold mainNodes. cbv zeta.
  assert (Hd : returns (if negb (isMixinOrClass (get_prop decl "kind")) then Ok None
                        else h <- declarationHeading options decl ;; Ok (Some h))).
  { destruct (isMixinOrClass (get_prop decl "kind")) eqn:K; cbn [negb].
    - destruct (declarationHeading_returns options decl D K) as [h ->].
      eexists; reflexivity.
    - eexists; reflexivity. }
  destruct Hd as [hd ->]. cbn [bind].
  repeat
    match goal with
    | |- returns (bind (tableWithTitle ?o ?t ?n ?d ?p) _) =>
        let nodes := fresh "nodes" in
        let E := fresh "E" in
        destruct (table_total o t n d p) as [nodes E];
        [ unfold headingDepth, noOpts; cbn [headingLevel]; lia
        | first [assumption | reflexivity]
        | apply noOpts_filter
        | unfold referenceColumns, parameterColumns, fieldColumns, methodColumns,
            eventColumns, attributeColumns, cssPropertyColumns, partColumns,
            slotColumns; simpl elements; columns_total
        | rewrite E; cbn [bind] ]
    | |- returns (bind (if ?c then _ else _) _) => destruct c; [|cbn [bind]]
    end.
  all: eexists; reflexivity.
Qed.

Lemma privateApi_total options fields methods :
  -1 <= offset options ->
  Forall (fun x => wf_callable x = true) methods ->
  returns (privateApi options fields methods).
Proof.
  intros D W. unfold privateApi. rewrite !restricted_filter. cbn [bind].
  assert (Du : 1 <= headingDepth options unfiltered).
  { unfold headingDepth, unfiltered; cbn [headingLevel]; lia. }
  destruct (table_total options "Fields" fieldColumns
              (VArr (List.filter is_restricted fields)) unfiltered) as [fT E];
    [exact Du | reflexivity | apply unfiltered_filter
    | unfold fieldColumns; columns_total |].
  rewrite E. cbn [bind].
  destruct (table_total options "Methods" methodColumns
              (VArr (List.filter is_restricted methods)) unfiltered) as [mT E'];
    [exact Du | reflexivity | apply unfiltered_filter | |].
  { pose proof (Forall_filter _ is_restricted _ W).
    unfold methodColumns; simpl elements; columns_total. }
  rewrite E'. eexists; reflexivity.
Qed.

Lemma wf_declaration_object d : wf_declaration d = true -> truthy d = true.
Proof.
  destruct d; try reflexivity; discriminate.
Qed.

(** The section builder returns on every well-typed declaration, when the
    declaration heading has a depth of 1 at least. *)
Lemma declarationSection_total options decl :
  -1 <= offset options ->
  wf_declaration decl = true -> returns (declarationSection options decl).
Proof.
  intros D W. pose proof (wf_declaration_object _ W) as T.
  unfold wf_declaration, wf_callable in W. rewrite !andb_true_iff in W.
  destruct W as [[[[[[[[[[_ Pa] _] Me] Ws] Mx] Ev] At] Cs] Pt] Sl].
  rewrite forallb_forall, <- Forall_forall in Ws.
  unfold declarationSection. rewrite (prop_returns _ _ T). cbn [bind].
  rewrite (members_array _ Me). cbn [bind].
  rewrite (filter_decides _ _ _ (decides_kindIs "field")). cbn [bind].
  rewrite (filter_decides _ _ _ (decides_kindIs "method")). cbn [bind].
  pose proof (Forall_filter _ (is_kind "method") _ Ws) as Wm.
  destruct (mainNodes_total options decl
              (List.filter (is_kind "field") (elements (get_prop decl "members")))
              _ D Mx Pa Ev At Cs Pt Sl Wm) as [main ->].
  cbn [bind]. rewrite hasPrivateApi_spec. cbn [bind].
  destruct (_ && _)%bool.
  - destruct (privateApi_total options
                (List.filter (is_kind "field") (elements (get_prop decl "members")))
                _ D Wm) as [pushed ->].
    eexists; reflexivity.
  - eexists; reflexivity.
Qed.

Lemma wf_declaration_callable d : wf_declaration d = true -> wf_callable d = true.
Proof.
  unfold wf_declaration, wf_callable. rewrite !andb_true_iff. tauto.
Qed.

(** The module builder returns on every well-typed module, when the offset
    is not negative. *)
Lemma makeModuleDoc_total m options :
  0 <= offset options ->
  wf_module m = true -> returns (makeModuleDoc m options).
Proof.
  intros Off. unfold wf_module. rewrite !andb_true_iff. intros [[[O D] Wd] Ex].
  assert (D2 : 1 <= headingDepth options level2).
  { unfold headingDepth, level2; cbn [headingLevel]; lia. }
  rewrite forallb_forall, <- Forall_forall in Wd.
  destruct m as [| | | | | |props]; try discriminate.
  unfold makeModuleDoc.
  assert (Ed : coalesce (opt_prop (VObj props) "declarations") (VArr [])
               = VArr (elements (get_prop (VObj props) "declarations"))).
  { unfold opt_prop. simpl nullish. cbv iota.
    destruct (get_prop (VObj props) "declarations"); try discriminate; reflexivity. }
  assert (Ee : coalesce (opt_prop (VObj props) "exports") (VArr [])
               = VArr (elements (get_prop (VObj props) "exports"))).
  { unfold opt_prop. simpl nullish. cbv iota.
    destruct (get_prop (VObj props) "exports"); try discriminate; reflexivity. }
  rewrite Ed, Ee. set (ds := elements (get_prop (VObj props) "declarations")) in *.
  unfold prop at 1 2. simpl nullish. cbn [bind].
  destruct (_ && _)%bool; [eexists; reflexivity|].
  cbn [array_of bind].
  rewrite (filter_decides _ _ _ (decides_kindIs "variable")). cbn [bind].
  rewrite (filter_decides _ _ _ (decides_kindIs "function")). cbn [bind].
  unfold prop. simpl nullish. cbn [bind].
  rewrite heading_valid by lia. cbn [bind].
  destruct (mapM_returns (declarationSection options) ds) as [sections ->].
  { intros d Hd. apply declarationSection_total; [lia|].
    rewrite Forall_forall in Wd. auto. }
  cbn [bind].
  destruct (table_total options "Variables" variableColumns
              (VArr (List.filter (is_kind "variable") ds)) level2) as [vT ->];
    [exact D2 | reflexivity | apply level2_filter
    | unfold variableColumns; columns_total |].
  cbn [bind].
  destruct (table_total options "Functions" functionColumns
              (VArr (List.filter (is_kind "function") ds)) level2) as [fT ->];
    [exact D2 | reflexivity | apply level2_filter | |].
  { assert (Forall (fun x => wf_callable x = true) (List.filter (is_kind "function") ds)).
    { apply Forall_filter. eapply Forall_impl; [|exact Wd].
      intros d. apply wf_declaration_callable. }
    unfold functionColumns; simpl elements; columns_total. }
  cbn [bind].
  destruct (table_total options "Exports" exportColumns
              (get_prop (VObj props) "exports") level2) as [eT ->];
    [exact D2 | exact Ex | apply level2_filter
    | unfold exportColumns; columns_total |].
  eexists; reflexivity.
Qed.

(* ================================================================= *)
(** ** The root document *)

Lemma mapM_app {A B} (f : A -> result B) xs ys :
  mapM f (xs ++ ys) = (a <- mapM f xs ;; b <- mapM f ys ;; Ok (a ++ b)).
Proof.
  induction xs as [|x xs IH]; simpl.
  - destruct (mapM f ys); reflexivity.
  - destruct (f x); simpl; [|reflexivity]. rewrite IH.
    destruct (mapM f xs); simpl; [|reflexivity].
    destruct (mapM f ys); reflexivity.
Qed.

Lemma filter_identity_app xs ys :
  filter_identity (xs ++ ys) = filter_identity xs ++ filter_identity ys.
Proof.
  induction xs as [|[n|] xs IH]; simpl; congruence.
Qed.

Lemma filter_identity_spliced docs :
  filter_identity (List.concat (map spliced docs)) = List.concat (map nodes_of docs).
Proof.
  induction docs as [|[nodes|] docs IH]; simpl.
  - reflexivity.
  - rewrite filter_identity_app, filter_identity_Some, IH. reflexivity.
  - exact IH.
Qed.

Lemma makeModuleDoc_empty m options :
  no_entries (opt_prop m "declarations") = true ->
  no_entries (opt_prop m "exports") = true ->
  makeModuleDoc m options = Ok None.
Proof.
  intros D E. unfold makeModuleDoc.
  assert (Hd : coalesce (opt_prop m "declarations") (VArr []) = VArr []).
  { destruct (opt_prop m "declarations") as [| | | | |[|? ?]|]; try discriminate; reflexivity. }
  assert (He : coalesce (opt_prop m "exports") (VArr []) = VArr []).
  { destruct (opt_prop m "exports") as [| | | | |[|? ?]|]; try discriminate; reflexivity. }
  rewrite Hd, He. reflexivity.
Qed.

Lemma tree_returns manifest ms options :
  0 <= offset options ->
  get_prop manifest "modules" = VArr ms ->
  forallb wf_module ms = true ->
  returns (tree manifest options).
Proof.
  intros Off M W. unfold tree, prop.
  destruct (nullish manifest) eqn:N.
  { destruct manifest; discriminate. }
  rewrite M. cbn [bind array_of].
  destruct (mapM_returns (fun x => makeModuleDoc x options) ms) as [docs ->].
  { intros m Hm. apply makeModuleDoc_total; [exact Off|].
    rewrite forallb_forall in W. auto. }
  eexists; reflexivity.
Qed.

Lemma tree_throws manifest options :
  (forall ms, get_prop manifest "modules" <> VArr ms) ->
  tree manifest options = TypeError.
Proof.
  intros M. unfold tree, prop. destruct (nullish manifest); [reflexivity|].
  cbn [bind]. destruct (get_prop manifest "modules"); try reflexivity.
  exfalso. eapply M. reflexivity.
Qed.

(* ================================================================= *)
(** ** The shape of a module document *)

Lemma is_kind_truthy k x : is_kind k x = true -> truthy x = true.
Proof.
  destruct x; try reflexivity; discriminate.
Qed.

Lemma table_no_html options title names _decls opts nodes :
  tableWithTitle options title names _decls opts = Ok nodes ->
  Forall (fun n => ~ is_html n) nodes.
Proof.
  intros H. destruct (tableWithTitle_cases _ _ _ _ _ _ H) as (rows & _ & [[_ ->] | [_ C]]).
  - constructor.
  - destruct C as (depth & align & header & body & -> & _).
    repeat constructor; intros [].
Qed.

Lemma dataRowCounts_table title depth align header body :
  dataRowCounts title
    [Heading depth [Text (VStr title)]; Table align (TableRow header :: body)]
  = [List.length body].
Proof. simpl. rewrite String.eqb_refl. reflexivity. Qed.

(** The rows of a table built from rows that the policy keeps and that are
    not falsy are those rows. *)
Lemma surviving_all options hl rows :
  Forall (fun x => keeps options x = true) rows ->
  Forall (fun x => truthy x = true) rows ->
  surviving options {| headingLevel := hl; filter := None |} (VArr rows) = Ok rows.
Proof.
  intros K T. rewrite surviving_policy.
  rewrite (filter_all _ _ K), (filter_all _ _ T). reflexivity.
Qed.

Lemma makeModuleDoc_inv m options nodes :
  makeModuleDoc m options = Ok (Some nodes) ->
  exists ds path sections vT fT eT,
    array_of (coalesce (opt_prop m "declarations") (VArr [])) = Ok ds /\
    mapM (declarationSection options) ds = Ok sections /\
    tableWithTitle options "Variables" variableColumns
      (VArr (List.filter (is_kind "variable") ds)) level2 = Ok vT /\
    tableWithTitle options "Functions" functionColumns
      (VArr (List.filter (is_kind "function") ds)) level2 = Ok fT /\
    tableWithTitle options "Exports" exportColumns (get_prop m "exports") level2 = Ok eT /\
    nodes = [Heading (1 + offset options) [InlineCode path; Text (VStr ":")]]
            ++ List.concat sections
            ++ vT
            ++ (if nonempty (List.filter (is_kind "variable") ds) then [line] else [])
            ++ fT
            ++ (if nonempty (List.filter (is_kind "function") ds) then [line] else [])
            ++ eT.
Proof.
  unfold makeModuleDoc. intros H. inv_bind H. inv_bind H.
  destruct (_ && _)%bool; [discriminate|].
  inv_bind H.
  rewrite (filter_decides _ _ _ (decides_kindIs "variable")) in H. cbn [bind] in H.
  rewrite (filter_decides _ _ _ (decides_kindIs "function")) in H. cbn [bind] in H.
  inv_bind H. inv_bind H. inv_bind H. inv_bind H.
  apply heading_Ok in E3. destruct E3 as [-> _].
  repeat inv_bind H. injection H as <-.
  rewrite filter_identity_Some.
  do 6 eexists. repeat (split; [eassumption|]). reflexivity.
Qed.

Lemma head_no_html options decl (b : bool) hd :
  (if b then exists h, declarationHeading options decl = Ok h /\ hd = [h]
   else hd = []) ->
  Forall (fun n => ~ is_html n) hd.
Proof.
  destruct b.
  - intros (h & H & ->). apply declarationHeading_inv in H.
    destruct H as (label & _ & _ & ->). repeat constructor. intros [].
  - intros ->. constructor.
Qed.

Lemma mainNodes_no_html options decl kind fields methods main :
  mainNodes options decl kind fields methods = Ok main ->
  Forall (fun n => ~ is_html n) main.
Proof.
  intros H. apply mainNodes_inv in H.
  destruct H as (hd & sc & mx & pa & fT & mT & ev & at_ & cs & pt & sl
                 & Hhd & Hsc & Hmx & Hpa & HfT & HmT & Hev & Hat & Hcs & Hpt & Hsl & ->).
  pose proof (head_no_html _ _ _ _ Hhd) as Uhd.
  assert (Upa : Forall (fun n => ~ is_html n) pa).
  { destruct (is_str kind "mixin").
    - eapply table_no_html; eassumption.
    - injection Hpa as <-. constructor. }
  repeat first
    [ assumption
    | eapply table_no_html; eassumption
    | apply Forall_app; split ].
Qed.

(** The data rows of a table section are as many as the rows that survive. *)
Lemma dataRowCounts_tableWithTitle options title names _decls opts rows nodes :
  surviving options opts _decls = Ok rows ->
  tableWithTitle options title names _decls opts = Ok nodes ->
  dataRowCounts title nodes = if nonempty rows then [List.length rows] else [].
Proof.
  intros S H. destruct (tableWithTitle_cases _ _ _ _ _ _ H) as (rows' & S' & C).
  assert (rows' = rows) by congruence. subst rows'.
  destruct C as [[-> ->] | [Hne (depth & align & header & body & -> & _ & _ & L & _)]].
  - reflexivity.
  - rewrite dataRowCounts_table, L. destruct rows; [congruence | reflexivity].
Qed.

(* ================================================================= *)
(** ** The properties of the renderer *)

(** C1, as the code has it: the rows a table retains under "details" are
    those retained under "hidden" without the protected ones, and the rows
    retained under "hidden" are those retained under the default policy
    without the private ones.  So, as sets and in row counts,
    "details" is within "hidden", which is within the default. *)
Theorem privacy_filter_monotone (rows : list value) (off hl : option Z) :
  let opts := {| headingLevel := hl; filter := None |} in
  exists d h n,
    surviving (policy off (VStr "details")) opts (VArr rows) = Ok d /\
    surviving (policy off (VStr "hidden")) opts (VArr rows) = Ok h /\
    surviving (policy off VUndefined) opts (VArr rows) = Ok n /\
    d = List.filter (fun x => negb (is_protected x)) h /\
    h = List.filter (fun x => negb (is_private x)) n /\
    (forall x, In x d -> In x h) /\
    (forall x, In x h -> In x n) /\
    (List.length d <= List.length h <= List.length n)%nat.
Proof.
  intros opts. unfold opts. do 3 eexists.
  split; [apply surviving_policy|].
  split; [apply surviving_policy|].
  split; [apply surviving_policy|].
  unfold keeps; simpl.
  assert (Hd : List.filter truthy (List.filter (fun x => negb (is_restricted x)) rows)
               = List.filter (fun x => negb (is_protected x))
                   (List.filter truthy (List.filter (fun x => negb (is_private x)) rows))).
  { unfold is_restricted. rewrite filter_negb_or. apply filter_filter_comm. }
  assert (Hh : List.filter truthy (List.filter (fun x => negb (is_private x)) rows)
               = List.filter (fun x => negb (is_private x))
                   (List.filter truthy (List.filter truthy rows))).
  { rewrite filter_idem. apply filter_filter_comm. }
  split; [exact Hd|]. split; [exact Hh|].
  split; [intros x; rewrite Hd; apply filter_sub|].
  split; [intros x; rewrite Hh; apply filter_sub|].
  split; [rewrite Hd | rewrite Hh]; apply filter_length_le.
Qed.

(** C1, as stated, fails: a protected field is retained under "hidden" and
    dropped under "details". *)
Lemma hidden_not_within_details :
  let rows := VArr [field "p" "protected"] in
  exists h d,
    surviving hidden noOpts rows = Ok h /\
    surviving details noOpts rows = Ok d /\
    (List.length d < List.length h)%nat /\
    ~ (forall x, In x h -> In x d).
Proof.
  exists [field "p" "protected"], []. repeat split; try reflexivity.
  - simpl; lia.
  - intros H. apply (H (field "p" "protected")). left; reflexivity.
Qed.




(** C3, as the code has it: the Events, Attributes, CSS Properties, Parts,
    Slots and Exports tables go through the same row filter as every other
    table.  For an input whose rows carry no private or protected tag (the
    schema gives these records none), the builder returns under every setting
    of [options.private] exactly what it returns under the default policy:
    the same heading and the same rows. *)
Theorem untagged_rows_unfiltered
    (off : option Z) (p : value) (title : string) (names : list colspec)
    (_decls : value) (hl : option Z) :
  Forall (fun x => is_restricted x = false) (elements _decls) ->
  let opts := {| headingLevel := hl; filter := None |} in
  surviving (policy off p) opts _decls = surviving (policy off VUndefined) opts _decls
  /\ tableWithTitle (policy off p) title names _decls opts
     = tableWithTitle (policy off VUndefined) title names _decls opts.
Proof.
  intros U opts.
  assert (S : surviving (policy off p) opts _decls
              = surviving (policy off VUndefined) opts _decls).
  { destruct _decls as [| | | | |rows|]; try reflexivity.
    unfold opts. rewrite !surviving_policy. f_equal.
    simpl in U. unfold keeps.
    destruct (private_is (policy off p) "hidden") eqn:Hh;
      [|destruct (private_is (policy off p) "details") eqn:Hd].
    - rewrite (filter_all (fun x => negb (is_private x)) rows).
      + simpl. symmetry. apply filter_idem.
      + eapply Forall_impl; [|exact U]. intros x Hx. unfold is_restricted in Hx.
        apply orb_false_elim in Hx. destruct Hx as [-> _]. reflexivity.
    - rewrite (filter_all (fun x => negb (is_restricted x)) rows).
      + simpl. symmetry. apply filter_idem.
      + eapply Forall_impl; [|exact U]. intros x ->. reflexivity.
    - reflexivity. }
  split; [exact S|]. unfold tableWithTitle. rewrite S. reflexivity.
Qed.

Lemma untagged_rows_unfiltered_witness :
  let events := VArr [VObj [("name", VStr "changed")]] in
  Forall (fun x => is_restricted x = false) (elements events)
  /\ tableWithTitle hidden "Events" eventColumns events noOpts
     = tableWithTitle (policy None VUndefined) "Events" eventColumns events noOpts.
Proof.
  intros events.
  assert (U : Forall (fun x => is_restricted x = false) (elements events)).
  { repeat constructor. }
  split; [exact U|].
  exact (proj2 (untagged_rows_unfiltered None (VStr "hidden") "Events" eventColumns
                  events None U)).
Defined.

(** C3, as stated, fails: an event that carries [privacy: 'private'] is in
    the Events table under the default policy and is filtered out of it under
    "hidden"; so is an export. *)
Lemma tagged_event_is_filtered :
  (exists shown,
      tableWithTitle None "Events" eventColumns (VArr [privateEvent]) noOpts = Ok shown
      /\ dataRowCounts "Events" shown = [1%nat])
  /\ tableWithTitle hidden "Events" eventColumns (VArr [privateEvent]) noOpts = Ok []
  /\ (exists a b,
        declarationSection None eventfulClass = Ok a
        /\ declarationSection hidden eventfulClass = Ok b
        /\ dataRowCounts "Events" a = [1%nat]
        /\ dataRowCounts "Events" b = [])
  /\ (exists a b,
        makeModuleDoc taggedExportModule None = Ok (Some a)
        /\ makeModuleDoc taggedExportModule hidden = Ok (Some b)
        /\ dataRowCounts "Exports" a = [1%nat]
        /\ dataRowCounts "Exports" b = []).
Proof.
  split; [eexists; split; [vm_compute; reflexivity | reflexivity]|].
  split; [reflexivity|].
  split; do 2 eexists; (split; [vm_compute; reflexivity|]);
    (split; [vm_compute; reflexivity|]); split; reflexivity.
Qed.

(** C4: the Private API block is in a declaration's section exactly when the
    policy is "details" and some field or method is private or protected.
    The block is the opening markup, the Fields and Methods tables built from
    the private or protected fields and methods with the identity as row
    filter, so that their data rows are exactly those members, and the closing
    markup.  For a class with two public fields and one private field the
    main Fields table has 2 data rows and the one of the block has 1. *)
Theorem private_api_block (options : option Options) (decl : value) (nodes : list node) :
  declarationSection options decl = Ok nodes ->
  by_filter options unfiltered = identity_cb /\
  (exists a, declarationSection details sampleClass = Ok a
             /\ dataRowCounts "Fields" a = [2%nat; 1%nat]) /\
  exists kind ms main,
    array_of (default_to (VArr []) (get_prop decl "members")) = Ok ms /\
    let fields := List.filter (is_kind "field") ms in
    let methods := List.filter (is_kind "method") ms in
    let privateFields := List.filter is_restricted fields in
    let privateMethods := List.filter is_restricted methods in
    mainNodes options decl kind fields methods = Ok main /\
    (In detailsOpen nodes <->
       private_is options "details" = true
       /\ exists x, In x (fields ++ methods) /\ is_restricted x = true) /\
    (In detailsOpen nodes ->
     exists fT mT,
       tableWithTitle options "Fields" fieldColumns (VArr privateFields) unfiltered = Ok fT /\
       tableWithTitle options "Methods" methodColumns (VArr privateMethods) unfiltered = Ok mT /\
       surviving options unfiltered (VArr privateFields) = Ok privateFields /\
       surviving options unfiltered (VArr privateMethods) = Ok privateMethods /\
       dataRowCounts "Fields" fT
         = (if nonempty privateFields then [List.length privateFields] else []) /\
       dataRowCounts "Methods" mT
         = (if nonempty privateMethods then [List.length privateMethods] else []) /\
       nodes = main ++ [detailsOpen] ++ fT ++ mT ++ [detailsClose] ++ [line]).
Proof.
  intros H. split; [reflexivity|].
  split; [eexists; split; [vm_compute; reflexivity | reflexivity]|].
  apply declarationSection_inv in H.
  destruct H as (kind & ms & main & _ & Hms & H). cbv zeta in H.
  destruct H as (Hmain & H).
  exists kind, ms, main. split; [exact Hms|]. cbv zeta. split; [exact Hmain|].
  set (fields := List.filter (is_kind "field") ms) in *.
  set (methods := List.filter (is_kind "method") ms) in *.
  assert (Truthy : forall k xs,
             List.filter truthy (List.filter is_restricted (List.filter (is_kind k) xs))
             = List.filter is_restricted (List.filter (is_kind k) xs)).
  { intros k xs. apply filter_all, Forall_filter, Forall_forall.
    intros x Hx. apply filter_In in Hx. eapply is_kind_truthy, Hx. }
  pose proof (mainNodes_no_html _ _ _ _ _ _ Hmain) as NoHtml.
  assert (NotMain : ~ In detailsOpen main).
  { intros Hin. rewrite Forall_forall in NoHtml. apply (NoHtml _ Hin). exact I. }
  destruct (private_is options "details") eqn:D; cbn [andb] in H.
  2:{ assert (Out : ~ In detailsOpen nodes).
      { subst nodes. destruct (nonempty main); [|exact NotMain].
        intros Hin. apply in_app_or in Hin. destruct Hin as [Hin|[Hin|[]]];
          [exact (NotMain Hin) | discriminate Hin]. }
      split; [split; [intros Hin; contradiction | intros [? _]; discriminate]|].
      intros Hin; contradiction. }
  destruct (existsb is_restricted (fields ++ methods)) eqn:X.
  2:{ assert (Out : ~ In detailsOpen nodes).
      { subst nodes. destruct (nonempty main); [|exact NotMain].
        intros Hin. apply in_app_or in Hin. destruct Hin as [Hin|[Hin|[]]];
          [exact (NotMain Hin) | discriminate Hin]. }
      split; [split; [intros Hin; contradiction|]|intros Hin; contradiction].
      intros [_ (x & Hx & Rx)].
      assert (existsb is_restricted (fields ++ methods) = true)
        by (apply existsb_exists; eauto).
      congruence. }
  destruct H as (pushed & Hp & ->).
  destruct (privateApi_inv _ _ _ _ Hp) as (fT & mT & HfT & HmT & ->).
  assert (Inside : In detailsOpen
                     ((main ++ [detailsOpen] ++ fT ++ mT ++ [detailsClose]) ++ [line])).
  { apply in_or_app. left. apply in_or_app. right. left. reflexivity. }
  split.
  - split; [intros _ | intros _; exact Inside].
    split; [reflexivity|]. apply existsb_exists in X. exact X.
  - intros _. exists fT, mT.
    assert (Sf : surviving options unfiltered (VArr (List.filter is_restricted fields))
                 = Ok (List.filter is_restricted fields)).
    { rewrite surviving_unfiltered. f_equal. apply Truthy. }
    assert (Sm : surviving options unfiltered (VArr (List.filter is_restricted methods))
                 = Ok (List.filter is_restricted methods)).
    { rewrite surviving_unfiltered. f_equal. apply Truthy. }
    split; [exact HfT|]. split; [exact HmT|]. split; [exact Sf|]. split; [exact Sm|].
    split; [exact (dataRowCounts_tableWithTitle _ _ _ _ _ _ _ Sf HfT)|].
    split; [exact (dataRowCounts_tableWithTitle _ _ _ _ _ _ _ Sm HmT)|].
    rewrite <- !app_assoc. reflexivity.
Qed.

Lemma private_api_block_witness :
  exists nodes,
    declarationSection details sampleClass = Ok nodes
    /\ dataRowCounts "Fields" nodes = [2%nat; 1%nat]
    /\ by_filter details unfiltered = identity_cb.
Proof.
  destruct (declarationSection details sampleClass) as [nodes|] eqn:E;
    [|vm_compute in E; discriminate].
  exists nodes. split; [reflexivity|].
  destruct (private_api_block details sampleClass nodes E) as (B & (a & Ea & Ca) & _).
  split; [|exact B].
  assert (a = nodes) by congruence. subst a. exact Ca.
Defined.

(** C5: every table the builder emits is rectangular.  Its alignment list,
    its header row and each of its data rows have as many entries as there
    are column specifications; it has one row per surviving row plus the
    header; every cell holds exactly one node, and the cell of a missing
    value is an empty text cell. *)
Theorem tables_rectangular
    (options : option Options) (title : string) (names : list colspec)
    (_decls : value) (opts : TableOpts) (nodes : list node) :
  tableWithTitle options title names _decls opts = Ok nodes ->
  (forall align kids, In (Table align kids) nodes ->
     exists rows header body,
       surviving options opts _decls = Ok rows /\
       kids = TableRow header :: body /\
       List.length align = List.length names /\
       List.length header = List.length names /\
       Forall (fun r => exists cells, r = TableRow cells
                          /\ List.length cells = List.length names
                          /\ Forall is_cell cells) body /\
       List.length kids = (List.length rows + 1)%nat) /\
  (forall i c, nullish (nth i (Column.values c) VUndefined) = true ->
     getCell i c = Ok emptyCell) /\
  (forall c, getCell (List.length (Column.values c)) c = Ok emptyCell).
Proof.
  intros H. split; [|split].
  - intros align kids Hin.
    destruct (tableWithTitle_cases _ _ _ _ _ _ H) as (rows & S & [[_ ->] | [_ C]]).
    + destruct Hin.
    + destruct C as (depth & align' & header & body & -> & La & Lh & Lb & Rows).
      destruct Hin as [E | [E | []]]; [discriminate|]. injection E as <- <-.
      exists rows, header, body. repeat (split; [assumption || reflexivity|]).
      simpl. rewrite Lb. lia.
  - intros i c N. unfold getCell.
    destruct (nth i (Column.values c) VUndefined); try discriminate; reflexivity.
  - intros c. unfold getCell. rewrite nth_overflow by lia. reflexivity.
Qed.

Lemma tables_rectangular_witness :
  exists heading align kids,
    tableWithTitle hidden "Fields" fieldColumns (get_prop sampleClass "members") noOpts
    = Ok [heading; Table align kids]
    /\ List.length align = 6%nat
    /\ List.length kids = 3%nat.
Proof.
  destruct (tableWithTitle hidden "Fields" fieldColumns
              (get_prop sampleClass "members") noOpts) as [nodes|] eqn:E;
    [|vm_compute in E; discriminate].
  pose proof (tables_rectangular hidden "Fields" fieldColumns
                (get_prop sampleClass "members") noOpts nodes E) as (R & _).
  assert (N : exists heading align kids, nodes = [heading; Table align kids]).
  { vm_compute in E. injection E as <-. do 3 eexists. reflexivity. }
  destruct N as (heading & align & kids & ->).
  exists heading, align, kids. split; [reflexivity|].
  destruct (R align kids) as (rows & header & body & S & _ & La & _ & _ & Lk).
  { right. left. reflexivity. }
  split; [exact La|].
  rewrite Lk. vm_compute in S. injection S as <-. reflexivity.
Defined.

(** C6: a bare field name resolves to the descriptor whose heading is the
    capitalized name and whose extractor reads that property of a record,
    yielding [undefined] on an absent record; a descriptor object resolves to
    itself.  Neither is given a formatter by the resolution: the column
    projection that consumes the descriptor supplies plain text when the
    formatter is missing and keeps the descriptor's own otherwise. *)
Theorem descriptor_resolution :
  (forall name,
      Descriptor.heading (getDescriptor (Name name)) = Fp.capital name /\
      (forall x, Descriptor.get (getDescriptor (Name name)) x = Ok (opt_prop x name)) /\
      (forall props,
          Descriptor.get (getDescriptor (Name name)) (VObj props) = Ok (lookup name props)) /\
      Descriptor.get (getDescriptor (Name name)) VUndefined = Ok VUndefined /\
      Descriptor.get (getDescriptor (Name name)) VNull = Ok VUndefined /\
      forall decls,
        getColumn decls (getDescriptor (Name name))
        = Ok (Column.make (Fp.capital name) text_cell
                (map (fun x => opt_prop x name) decls))) /\
  (forall d,
      getDescriptor (Desc d) = d /\
      forall decls,
        getColumn decls (getDescriptor (Desc d))
        = (values <- mapM (Descriptor.get d) decls ;;
           Ok (Column.make (Descriptor.heading d)
                 (match Descriptor.cellType d with
                  | Some formatter => formatter
                  | None => text_cell
                  end)
                 values))) /\
  Fp.capital "name" = "Name" /\
  Fp.capital "description" = "Description" /\
  (forall v, text_cell v = Ok (Text v)).
Proof.
  split; [|split; [|repeat split]].
  - intros name. repeat split.
    intros decls. unfold getColumn. simpl.
    rewrite (mapM_pure _ (fun x => opt_prop x name)); [reflexivity|].
    intros; reflexivity.
  - intros d. split; reflexivity.
Qed.

(** C7: a module with no declarations and no exports yields the absent
    result and adds no node to the root; the root holds the node sequences of
    the modules, in manifest order, absent results left out. *)
Theorem empty_module_contributes_nothing (options : option Options) :
  (forall m,
      no_entries (opt_prop m "declarations") = true ->
      no_entries (opt_prop m "exports") = true ->
      makeModuleDoc m options = Ok None
      /\ filter_identity (spliced None) = []
      /\ forall before after,
           tree (VObj [("modules", VArr (before ++ m :: after))]) options
           = tree (VObj [("modules", VArr (before ++ after))]) options) /\
  (forall manifest ms docs,
      prop manifest "modules" = Ok (VArr ms) ->
      mapM (fun x => makeModuleDoc x options) ms = Ok docs ->
      tree manifest options = Ok (Root (List.concat (map nodes_of docs)))).
Proof.
  split.
  - intros m D E. pose proof (makeModuleDoc_empty m options D E) as M.
    split; [exact M|]. split; [reflexivity|].
    intros before after. unfold tree. cbn [prop nullish get_prop lookup String.eqb
      Ascii.eqb Bool.eqb bind array_of].
    simpl. rewrite !mapM_app. simpl. rewrite M.
    destruct (mapM _ before) as [a|]; simpl; [|reflexivity].
    destruct (mapM _ after) as [b|]; simpl; [|reflexivity].
    rewrite !filter_identity_spliced, !map_app, !concat_app. reflexivity.
  - intros manifest ms docs P M. unfold tree. rewrite P. simpl. rewrite M. simpl.
    rewrite filter_identity_spliced. reflexivity.
Qed.

Lemma empty_module_contributes_nothing_witness :
  (no_entries (opt_prop emptyModule "declarations") = true
   /\ no_entries (opt_prop emptyModule "exports") = true
   /\ makeModuleDoc emptyModule details = Ok None)
  /\ (prop sampleManifest "modules" = Ok (VArr [emptyModule; sampleModule])
      /\ exists docs,
           mapM (fun x => makeModuleDoc x details) [emptyModule; sampleModule] = Ok docs
           /\ tree sampleManifest details = Ok (Root (List.concat (map nodes_of docs)))).
Proof.
  split.
  - split; [reflexivity|]. split; [reflexivity|].
    exact (proj1 (proj1 (empty_module_contributes_nothing details) emptyModule
                   eq_refl eq_refl)).
  - split; [reflexivity|].
    destruct (mapM (fun x => makeModuleDoc x details) [emptyModule; sampleModule])
      as [docs|] eqn:M; [|vm_compute in M; discriminate].
    exists docs. split; [reflexivity|].
    exact (proj2 (empty_module_contributes_nothing details) sampleManifest
             [emptyModule; sampleModule] docs eq_refl M).
Defined.

(** C8 fails on the code.  The module [taggedVariableModule] declares one
    variable, tagged private.  Under "hidden" no row of the Variables table
    survives and no table is emitted, and the module document holds the
    separator all the same: the separator is guarded by the number of
    variables counted before the row filter.  The section of a declaration
    guards its own separator by the nodes that were emitted: the section of
    that same variable is empty, separator included. *)
Theorem separator_without_table :
  surviving hidden level2 (get_prop taggedVariableModule "declarations") = Ok []
  /\ tableWithTitle hidden "Variables" variableColumns
       (get_prop taggedVariableModule "declarations") level2 = Ok []
  /\ makeModuleDoc taggedVariableModule hidden
     = Ok (Some [Heading 1 [InlineCode (VStr "state.js"); Text (VStr ":")]; line])
  /\ Forall (fun d => declarationSection hidden d = Ok [])
       (elements (get_prop taggedVariableModule "declarations")).
Proof.
  split; [reflexivity|]. split; [reflexivity|]. split; [reflexivity|].
  apply Forall_cons; [reflexivity | apply Forall_nil].
Qed.

(** C9, as the code has it: the builders return on every well-typed
    manifest, however sparsely populated, as long as no heading is asked for
    at a depth below 1.  A bare field name and each descriptor of the program
    but [PARAMETERS] read every row that is not falsy, and [PARAMETERS] reads
    every record whose [parameters], when present, is an array of parameters
    with string names and type texts; so column projection returns on such
    rows.  Table assembly returns on an absent or array input whose rows its
    column specifications can read when the depth of its heading is 1 at
    least; the section builder returns on every well-typed declaration when
    the offset is -1 at least, and the module builder on every well-typed
    module when the offset is not negative; the document then throws exactly
    when its input has no [modules] array. *)
Theorem builders_total (options : option Options) :
  ((forall name, tolerant (Name name)) /\
   Forall tolerant [Desc DECLARATION; Desc DEFAULT; Desc ATTR_FIELD; Desc INHERITANCE;
                    Desc MODULE; Desc PACKAGE; Desc RETURN; Desc TYPE] /\
   (forall x, wf_callable x = true -> returns (formatParameters x)) /\
   (forall c rows, tolerant c -> Forall (fun x => truthy x = true) rows ->
      returns (getColumn rows (getDescriptor c)))) /\
  (forall title names _decls opts,
      1 <= headingDepth options opts ->
      optional_array _decls = true ->
      (forall f, filter opts = Some f -> forall x, returns (f x)) ->
      Forall (total_on (List.filter truthy (elements _decls))) names ->
      returns (tableWithTitle options title names _decls opts)) /\
  (forall decl, -1 <= offset options -> wf_declaration decl = true ->
      returns (declarationSection options decl)) /\
  (forall m, 0 <= offset options -> wf_module m = true ->
      returns (makeModuleDoc m options)) /\
  (forall manifest,
      0 <= offset options ->
      (forall ms, get_prop manifest "modules" = VArr ms -> forallb wf_module ms = true) ->
      (returns (tree manifest options)
       <-> exists ms, get_prop manifest "modules" = VArr ms) /\
      ((forall ms, get_prop manifest "modules" <> VArr ms) ->
       tree manifest options = TypeError)).
Proof.
  split; [|split; [|split; [|split]]].
  - split; [exact tolerant_Name|]. split; [|split].
    + repeat constructor;
        first [ apply tolerant_DECLARATION | apply tolerant_DEFAULT
              | apply tolerant_ATTR_FIELD | apply tolerant_INHERITANCE
              | apply tolerant_MODULE | apply tolerant_PACKAGE
              | apply tolerant_RETURN | apply tolerant_TYPE ].
    + exact formatParameters_returns.
    + intros c rows [Tg _] Tr. unfold getColumn.
      destruct (mapM_returns (Descriptor.get (getDescriptor c)) rows) as [vs ->].
      * intros x Hx. apply Tg. rewrite Forall_forall in Tr. auto.
      * eexists; reflexivity.
  - intros. apply table_total; assumption.
  - intros. apply declarationSection_total; assumption.
  - intros. apply makeModuleDoc_total; assumption.
  - intros manifest Off W. split; [split|].
    + intros [t Ht].
      destruct (get_prop manifest "modules") as [| | | | |ms|] eqn:M;
        try (rewrite tree_throws in Ht; [discriminate | intros ms; rewrite M; discriminate]).
      exists ms; reflexivity.
    + intros [ms M]. eapply tree_returns; [exact Off | exact M | apply W, M].
    + apply tree_throws.
Qed.

Lemma builders_total_witness :
  wf_declaration sampleClass = true
  /\ wf_module sampleModule = true
  /\ 0 <= offset details
  /\ returns (declarationSection details sampleClass)
  /\ returns (makeModuleDoc sampleModule details)
  /\ returns (tree sampleManifest details)
  /\ returns (tableWithTitle details "Mixins" referenceColumns
                (get_prop sampleClass "mixins") noOpts).
Proof.
  destruct (builders_total details) as (_ & Table & Section & Module & Document).
  assert (Off : 0 <= offset details) by (vm_compute; discriminate).
  split; [reflexivity|]. split; [reflexivity|]. split; [exact Off|].
  split; [apply Section; [vm_compute; discriminate | reflexivity]|].
  split; [apply Module; [exact Off | reflexivity]|].
  split.
  - apply (Document sampleManifest Off).
    + intros ms E. vm_compute in E. injection E as <-. reflexivity.
    + eexists; reflexivity.
  - apply Table; [vm_compute; discriminate | reflexivity | discriminate |].
    unfold referenceColumns. columns_total.
Defined.

(** C9, as stated, fails: the options may hold a negative heading offset,
    and a well-typed module, declaration or table input then makes the
    builders throw, as soon as they ask for a heading of depth 0. *)
Lemma builders_throw_below_depth_1 :
  wf_module sampleModule = true
  /\ makeModuleDoc sampleModule (policy (Some (-1)) VUndefined) = TypeError
  /\ wf_declaration sampleClass = true
  /\ declarationSection (policy (Some (-2)) VUndefined) sampleClass = TypeError
  /\ optional_array (get_prop sampleClass "members") = true
  /\ tableWithTitle (policy (Some (-3)) VUndefined) "Fields" fieldColumns
       (get_prop sampleClass "members") noOpts = TypeError
  /\ tree sampleManifest (policy (Some (-1)) VUndefined) = TypeError.
Proof. repeat split; reflexivity. Qed.

(** C10: a cell whose projected value is falsy (the empty string, 0, false,
    as well as undefined and null) is the empty text cell, whatever the
    column's formatter is, even one that throws on every value; a truthy value
    is handed to the formatter.  Every data row of an emitted table is made
    of such cells, one per column. *)
Theorem formatter_only_on_truthy
    (heading : string) (formatter : value -> result node) (values : list value)
    (i : nat) :
  truthy (nth i values VUndefined) = false ->
  getCell i (Column.make heading formatter values) = Ok emptyCell /\
  getCell i (Column.make heading (fun _ => TypeError) values) = Ok emptyCell /\
  (forall v, truthy v = true ->
     getCell 0 (Column.make heading formatter [v])
     = (cell <- formatter v ;; Ok (TableCell [cell]))) /\
  getCell 0 (Column.make heading formatter [VStr ""]) = Ok emptyCell /\
  getCell 0 (Column.make heading formatter [VNum 0]) = Ok emptyCell /\
  getCell 0 (Column.make heading formatter [VBool false]) = Ok emptyCell /\
  getCell 0 (Column.make heading formatter [VUndefined]) = Ok emptyCell /\
  getCell 0 (Column.make heading formatter [VNull]) = Ok emptyCell /\
  (forall options title names _decls opts rows nodes,
     surviving options opts _decls = Ok rows -> rows <> [] ->
     tableWithTitle options title names _decls opts = Ok nodes ->
     exists columns body depth align,
       mapM (Fp.compose (getColumn rows) getDescriptor) names = Ok columns /\
       mapM_indexed (fun _ j => cells <- mapM (getCell j) columns ;; Ok (TableRow cells))
         0 rows = Ok body /\
       nodes = [Heading depth [Text (VStr title)];
                Table align (TableRow (map getHeading columns) :: body)]).
Proof.
  intros F.
  assert (G : forall f, getCell i (Column.make heading f values) = Ok emptyCell).
  { intros f. unfold getCell. simpl. rewrite F. reflexivity. }
  split; [apply G|]. split; [apply G|].
  split; [intros v T; unfold getCell; simpl; rewrite T; reflexivity|].
  repeat (split; [reflexivity|]).
  intros options title names _decls opts rows nodes S Hne H.
  destruct (tableWithTitle_inv _ _ _ _ _ _ _ S Hne H) as (columns & body & Hc & Hb & ->).
  exists columns, body. do 2 eexists. split; [exact Hc|]. split; [exact Hb|]. reflexivity.
Qed.

Lemma formatter_only_on_truthy_witness :
  truthy (nth 1 [VStr "a"; VNum 0] VUndefined) = false
  /\ getCell 1 (Column.make "Default" (fun _ => TypeError) [VStr "a"; VNum 0])
     = Ok emptyCell.
Proof.
  split; [reflexivity|].
  exact (proj1 (formatter_only_on_truthy "Default" (fun _ => TypeError)
                  [VStr "a"; VNum 0] 1 eq_refl)).
Defined.

(* ================================================================= *)
(** ** Further properties of the renderer *)

Lemma mapM_throws {A B} (f : A -> result B) xs x :
  In x xs -> f x = TypeError -> mapM f xs = TypeError.
Proof.
  induction xs as [|y ys IH]; intros Hin Hx; [destruct Hin|].
  simpl. destruct Hin as [-> | Hin].
  - rewrite Hx. reflexivity.
  - destruct (f y); [|reflexivity]. simpl. rewrite (IH Hin Hx). reflexivity.
Qed.

Lemma formatParameters_throws x :
  unmappable (opt_prop x "parameters") = true -> formatParameters x = TypeError.
Proof.
  unfold formatParameters. destruct (opt_prop x "parameters"); try discriminate; reflexivity.
Qed.

(** X1: an extractor that throws on one surviving row makes the whole table
    throw, whatever the other rows and columns are.  So a table with the
    Parameters column throws as soon as one surviving row has a [parameters]
    field that is neither absent nor an array. *)
Theorem extractor_failure_propagates
    (options : option Options) (title : string) (names : list colspec)
    (_decls : value) (opts : TableOpts) (rows : list value) (x : value) :
  surviving options opts _decls = Ok rows ->
  In x rows ->
  (forall c, In c names -> Descriptor.get (getDescriptor c) x = TypeError ->
     tableWithTitle options title names _decls opts = TypeError) /\
  (In (Desc PARAMETERS) names -> unmappable (opt_prop x "parameters") = true ->
     tableWithTitle options title names _decls opts = TypeError).
Proof.
  intros S Hx.
  assert (G : forall c, In c names -> Descriptor.get (getDescriptor c) x = TypeError ->
                tableWithTitle options title names _decls opts = TypeError).
  { intros c Hc E. unfold tableWithTitle. rewrite S. cbn [bind].
    destruct rows as [|y ys]; [destruct Hx|]. cbn [Fp.isLengthy List.length Nat.eqb negb].
    rewrite (mapM_throws _ names c Hc); [reflexivity|].
    unfold Fp.compose, getColumn.
    rewrite (mapM_throws _ (y :: ys) x Hx E). reflexivity. }
  split; [exact G|].
  intros Hc U. apply (G (Desc PARAMETERS) Hc). simpl.
  apply formatParameters_throws, U.
Qed.

Lemma extractor_failure_propagates_witness :
  let method := VObj [("kind", VStr "method"); ("name", VStr "go");
                      ("parameters", VStr "x, y")] in
  surviving None noOpts (VArr [method]) = Ok [method]
  /\ tableWithTitle None "Methods" methodColumns (VArr [method]) noOpts = TypeError.
Proof.
  intros method. split; [reflexivity|].
  apply (proj2 (extractor_failure_propagates None "Methods" methodColumns
                  (VArr [method]) noOpts [method] method eq_refl
                  (or_introl eq_refl))).
  - unfold methodColumns. simpl. tauto.
  - reflexivity.
Defined.

(** X2: an input that is [undefined] or [null] gives no table and never
    throws, whatever the filter is; an input that is neither nullish nor an
    array throws. *)
Theorem table_of_missing_input
    (options : option Options) (title : string) (names : list colspec)
    (_decls : value) (opts : TableOpts) :
  (nullish _decls = true ->
     tableWithTitle options title names _decls opts = Ok []) /\
  (nullish _decls = false -> (forall rows, _decls <> VArr rows) ->
     tableWithTitle options title names _decls opts = TypeError).
Proof.
  split.
  - intros N. apply tableWithTitle_empty. unfold surviving.
    destruct _decls; try discriminate; reflexivity.
  - intros N A. unfold tableWithTitle, surviving.
    destruct _decls; try discriminate; try reflexivity.
    exfalso. eapply A. reflexivity.
Qed.

Lemma table_of_missing_input_witness :
  tableWithTitle hidden "Mixins" referenceColumns (get_prop sampleClass "mixins")
    {| headingLevel := None; filter := Some (fun _ => TypeError) |} = Ok []
  /\ tableWithTitle hidden "Mixins" referenceColumns (VStr "A, B") noOpts = TypeError.
Proof.
  split.
  - apply (proj1 (table_of_missing_input hidden "Mixins" referenceColumns
                    (get_prop sampleClass "mixins")
                    {| headingLevel := None; filter := Some (fun _ => TypeError) |})).
    reflexivity.
  - apply (proj2 (table_of_missing_input hidden "Mixins" referenceColumns
                    (VStr "A, B") noOpts)); [reflexivity | discriminate].
Defined.

Lemma subseq_refl {A} (xs : list A) : subseq xs xs.
Proof. induction xs; constructor; assumption. Qed.

Lemma subseq_trans {A} (xs ys zs : list A) :
  subseq xs ys -> subseq ys zs -> subseq xs zs.
Proof.
  intros H1 H2. revert xs H1.
  induction H2 as [|z ys zs H2 IH|z ys zs H2 IH]; intros xs H1.
  - exact H1.
  - constructor. apply IH, H1.
  - inversion H1; subst.
    + apply subseq_skip. apply IH. assumption.
    + apply subseq_keep. apply IH. assumption.
Qed.

Lemma subseq_filter {A} (p : A -> bool) xs : subseq (List.filter p xs) xs.
Proof.
  induction xs as [|x xs IH]; simpl; [constructor|].
  destruct (p x); constructor; exact IH.
Qed.

Lemma js_filter_kept (f : callback) xs ys :
  Js.filter f xs = Ok ys ->
  subseq ys xs /\ Forall (fun y => exists b, f y = Ok b /\ truthy b = true) ys.
Proof.
  revert ys. induction xs as [|x xs IH]; intros ys H; simpl in H.
  - injection H as <-. split; constructor.
  - inv_bind H. inv_bind H. injection H as <-.
    destruct (IH _ E0) as [S P].
    destruct (truthy r) eqn:T.
    + split; [constructor; exact S|]. constructor; [eauto | exact P].
    + split; [constructor; exact S | exact P].
Qed.

Lemma js_filter_all (f : callback) ys :
  Forall (fun y => exists b, f y = Ok b /\ truthy b = true) ys ->
  Js.filter f ys = Ok ys.
Proof.
  induction 1 as [|y ys (b & E & T) _ IH]; simpl; [reflexivity|].
  rewrite E. simpl. rewrite IH. simpl. rewrite T. reflexivity.
Qed.

(** X3: whatever the row filter is, the rows that reach a table are rows of
    the input in their input order, none of them falsy, and filtering them
    again changes nothing: a table built from the surviving rows is the table
    built from the input. *)
Theorem surviving_rows_invariants
    (options : option Options) (opts : TableOpts) (rows kept : list value) :
  surviving options opts (VArr rows) = Ok kept ->
  subseq kept rows /\
  Forall (fun x => truthy x = true) kept /\
  surviving options opts (VArr kept) = Ok kept /\
  forall title names,
    tableWithTitle options title names (VArr kept) opts
    = tableWithTitle options title names (VArr rows) opts.
Proof.
  unfold surviving. simpl. intros H. inv_bind H.
  rewrite (filter_decides _ _ _ decides_identity) in H. injection H as <-.
  destruct (js_filter_kept _ _ _ E) as [S P].
  assert (T : Forall (fun x => truthy x = true) (List.filter truthy r)).
  { apply Forall_forall. intros x Hx. apply filter_In in Hx. tauto. }
  assert (Again : (kept <- Js.filter (by_filter options opts) (List.filter truthy r) ;;
                   Js.filter identity_cb kept) = Ok (List.filter truthy r)).
  { rewrite js_filter_all by (apply Forall_filter, P). simpl.
    rewrite (filter_decides _ _ _ decides_identity), filter_idem. reflexivity. }
  split; [eapply subseq_trans; [apply subseq_filter | exact S]|].
  split; [exact T|]. split; [exact Again|].
  intros title names. unfold tableWithTitle, surviving. simpl.
  rewrite Again, E. simpl.
  rewrite (filter_decides _ _ _ decides_identity). reflexivity.
Qed.

Lemma surviving_rows_invariants_witness :
  let rows := [field "a" "public"; VNull; field "c" "private"; field "b" "protected"] in
  let kept := [field "a" "public"; field "b" "protected"] in
  surviving hidden noOpts (VArr rows) = Ok kept
  /\ subseq kept rows
  /\ surviving hidden noOpts (VArr kept) = Ok kept.
Proof.
  intros rows kept.
  pose proof (surviving_rows_invariants hidden noOpts rows kept eq_refl) as (S & _ & I & _).
  split; [reflexivity|]. split; assumption.
Defined.




Section HeadingOffset.

Variables (off off' : option Z) (p : value).

Let k : Z := offset (policy off' p) - offset (policy off p).


Hypothesis Hoff : 0 <= offset (policy off p).
Hypothesis Hoff' : 0 <= offset (policy off' p).









End HeadingOffset.



Lemma mapM_Forall2 {A B} (f : A -> result B) xs ys :
  mapM f xs = Ok ys -> Forall2 (fun x y => f x = Ok y) xs ys.
Proof.
  revert ys. induction xs as [|x xs IH]; intros ys H; simpl in H.
  - injection H as <-. constructor.
  - inv_bind H. inv_bind H. injection H as <-. constructor; auto.
Qed.

Lemma mapM_nth_error {A B} (f : A -> result B) xs ys n x :
  mapM f xs = Ok ys -> nth_error xs n = Some x ->
  exists y, nth_error ys n = Some y /\ f x = Ok y.
Proof.
  revert ys n. induction xs as [|a xs IH]; intros ys n H Hn.
  - destruct n; discriminate.
  - simpl in H. inv_bind H. inv_bind H. injection H as <-.
    destruct n as [|n]; simpl in *.
    + injection Hn as <-. eauto.
    + eapply IH; eassumption.
Qed.

Lemma Forall2_compose {A B C} (P : A -> B -> Prop) (Q : B -> C -> Prop) xs ys zs :
  Forall2 P xs ys -> Forall2 Q ys zs ->
  Forall2 (fun x z => exists y, P x y /\ Q y z) xs zs.
Proof.
  intros H. revert zs. induction H as [|x y xs ys Hxy _ IH]; intros zs HQ.
  - inversion HQ. constructor.
  - inversion HQ; subst. constructor; eauto.
Qed.

(** The column that a specification is projected into over [rows]. *)
Lemma getColumn_projects rows c col :
  Fp.compose (getColumn rows) getDescriptor c = Ok col ->
  getHeading col = header_of c /\
  Column.cellType col = formatter_of c /\
  mapM (Descriptor.get (getDescriptor c)) rows = Ok (Column.values col).
Proof.
  unfold Fp.compose, getColumn. intros H. inv_bind H. injection H as <-.
  repeat split. exact E.
Qed.

Lemma getCell_renders rows c col i x cell :
  Fp.compose (getColumn rows) getDescriptor c = Ok col ->
  nth_error rows i = Some x ->
  getCell i col = Ok cell ->
  renders x c cell.
Proof.
  intros Hc Hx H. destruct (getColumn_projects _ _ _ Hc) as (_ & Hf & Hv).
  destruct (mapM_nth_error _ _ _ _ _ Hv Hx) as (v & Hn & Hg).
  exists v. split; [exact Hg|].
  unfold getCell in H. rewrite (nth_error_nth _ _ _ Hn), Hf in H.
  destruct (truthy v).
  - inv_bind H. injection H as <-. eauto.
  - injection H as <-. reflexivity.
Qed.

Lemma getRows_renders rows names columns :
  mapM (Fp.compose (getColumn rows) getDescriptor) names = Ok columns ->
  forall suffix i body,
    (forall n x, nth_error suffix n = Some x -> nth_error rows (i + n) = Some x) ->
    mapM_indexed (getRows columns) i suffix = Ok body ->
    Forall2 (fun x r => exists cells, r = TableRow cells
                                      /\ Forall2 (renders x) names cells)
      suffix body.
Proof.
  intros Hc. induction suffix as [|x suffix IH]; intros i body Hs H; simpl in H.
  - injection H as <-. constructor.
  - inv_bind H. inv_bind H. injection H as <-. constructor.
    + unfold getRows in E. inv_bind E. injection E as <-.
      eexists; split; [reflexivity|].
      pose proof (Forall2_compose _ _ _ _ _ (mapM_Forall2 _ _ _ Hc) (mapM_Forall2 _ _ _ E1))
        as F.
      eapply Forall2_impl; [|exact F]. intros c cell (col & Hcol & Hcell).
      eapply getCell_renders; [exact Hcol | | exact Hcell].
      specialize (Hs 0%nat x eq_refl). rewrite Nat.add_0_r in Hs. exact Hs.
    + apply (IH (S i)); [|assumption].
      intros n y Hn. specialize (Hs (S n) y Hn).
      rewrite Nat.add_succ_r in Hs. exact Hs.
Qed.

(** X5: an emitted table shows the surviving rows in their order, one data
    row each.  The header holds the heading of every column specification in
    the order given, and cell j of data row i is what specification j shows
    of surviving row i: its extracted value through its formatter (plain text
    unless the descriptor names one), or the empty cell for a falsy value. *)
Theorem table_rows_render
    (options : option Options) (title : string) (names : list colspec)
    (_decls : value) (opts : TableOpts) (rows : list value) (nodes : list node) :
  surviving options opts _decls = Ok rows -> rows <> [] ->
  tableWithTitle options title names _decls opts = Ok nodes ->
  exists body,
    nodes = [ Heading ((match headingLevel opts with Some l => l | None => 3 end)
                       + offset options) [Text (VStr title)];
              Table (List.repeat None (List.length names))
                (TableRow (map header_of names) :: body) ] /\
    Forall2 (fun x r => exists cells, r = TableRow cells
                                      /\ Forall2 (renders x) names cells)
      rows body.
Proof.
  intros S Hne H.
  destruct (tableWithTitle_inv _ _ _ _ _ _ _ S Hne H) as (columns & body & Hc & Hb & ->).
  exists body. split.
  - assert (Hh : map getHeading columns = map header_of names).
    { pose proof (mapM_Forall2 _ _ _ Hc) as F. clear -F.
      induction F as [|c col names columns Hcol _ IH]; simpl; [reflexivity|].
      rewrite IH. f_equal. apply (getColumn_projects _ _ _ Hcol). }
    unfold Fp.repeat. rewrite (mapM_length _ _ _ Hc), Hh. reflexivity.
  - apply (getRows_renders rows names columns Hc rows 0%nat body); [|exact Hb].
    intros n x Hn. exact Hn.
Qed.

Lemma table_rows_render_witness :
  let parameters := VArr [VObj [("name", VStr "x"); ("type", VObj [("text", VStr "string")])]] in
  exists heading align header name type default description,
    tableWithTitle None "Parameters" parameterColumns parameters noOpts
    = Ok [heading; Table align [header; TableRow [name; type; default; description]]]
    /\ renders (VObj [("name", VStr "x"); ("type", VObj [("text", VStr "string")])])
         (Desc TYPE) type
    /\ type = TableCell [InlineCode (VStr "string")].
Proof.
  intros parameters.
  destruct (table_rows_render None "Parameters" parameterColumns parameters noOpts
              [VObj [("name", VStr "x"); ("type", VObj [("text", VStr "string")])]]
              _ eq_refl ltac:(discriminate) eq_refl) as (body & E & R).
  injection E as <-.
  do 7 eexists. split; [reflexivity|]. split; [|reflexivity].
  inversion R as [|? ? ? ? (cells & Ec & Rc) _]; subst.
  injection Ec as <-.
  inversion Rc as [|? ? ? ? _ Rc1]; subst.
  inversion Rc1 as [|? ? ? ? Rtype _]; subst.
  exact Rtype.
Defined.

Lemma privateApi_no_line options fields methods pushed :
  privateApi options fields methods = Ok pushed -> ~ In line pushed.
Proof.
  intros H. destruct (privateApi_inv _ _ _ _ H) as (fT & mT & HfT & HmT & ->).
  pose proof (table_no_html _ _ _ _ _ _ HfT) as Nf.
  pose proof (table_no_html _ _ _ _ _ _ HmT) as Nm.
  rewrite Forall_forall in Nf, Nm.
  intros Hin. simpl in Hin. destruct Hin as [E | Hin]; [discriminate E|].
  apply in_app_or in Hin. destruct Hin as [Hin | Hin]; [exact (Nf _ Hin I)|].
  apply in_app_or in Hin. destruct Hin as [Hin | [E | []]];
    [exact (Nm _ Hin I) | discriminate E].
Qed.

(** X6: the section of a declaration is either empty or ends with the
    separator, and the separator occurs nowhere else in it: a declaration
    that emits nothing leaves no stray separator, and one that emits
    something is closed by exactly one. *)
Theorem section_separator (options : option Options) (decl : value) (nodes : list node) :
  declarationSection options decl = Ok nodes ->
  nodes = [] \/
  exists body, body <> [] /\ nodes = body ++ [line] /\ ~ In line body.
Proof.
  intros H. apply declarationSection_inv in H.
  destruct H as (kind & ms & main & _ & _ & H). cbv zeta in H.
  destruct H as (Hmain & H).
  pose proof (mainNodes_no_html _ _ _ _ _ _ Hmain) as NoHtml.
  assert (NotMain : ~ In line main).
  { intros Hin. rewrite Forall_forall in NoHtml. exact (NoHtml _ Hin I). }
  destruct (_ && _)%bool.
  - destruct H as (pushed & Hp & ->). right. exists (main ++ pushed).
    split; [|split; [reflexivity|]].
    + destruct (privateApi_inv _ _ _ _ Hp) as (fT & mT & _ & _ & ->).
      destruct main; discriminate.
    + intros Hin. apply in_app_or in Hin. destruct Hin as [Hin | Hin].
      * exact (NotMain Hin).
      * exact (privateApi_no_line _ _ _ _ Hp Hin).
  - subst nodes. destruct main as [|n main]; [left; reflexivity|].
    right. exists (n :: main). split; [discriminate|]. split; [reflexivity | exact NotMain].
Qed.

Lemma section_separator_witness :
  exists body,
    declarationSection details sampleClass = Ok (body ++ [line])
    /\ body <> [] /\ ~ In line body.
Proof.
  destruct (declarationSection details sampleClass) as [nodes|] eqn:E;
    [|vm_compute in E; discriminate].
  destruct (section_separator details sampleClass nodes E) as [N | (body & Hne & -> & Hno)].
  - vm_compute in E. rewrite N in E. discriminate E.
  - exists body. split; [reflexivity|]. split; assumption.
Defined.

Lemma table_sub_headings options title names _decls opts nodes :
  headingLevel opts = None ->
  tableWithTitle options title names _decls opts = Ok nodes ->
  Forall (sub_heading options) nodes.
Proof.
  intros L H.
  destruct (surviving options opts _decls) as [rows|] eqn:S.
  2:{ unfold tableWithTitle in H. rewrite S in H. discriminate. }
  destruct rows as [|x rows].
  - rewrite (tableWithTitle_empty _ _ _ _ _ S) in H. injection H as <-. constructor.
  - destruct (tableWithTitle_inv _ _ _ _ _ _ _ S ltac:(discriminate) H)
      as (columns & body & _ & _ & ->).
    rewrite L. apply Forall_cons; [|apply Forall_cons; [|apply Forall_nil]].
    + intros depth kids E. injection E as <- <-. eauto.
    + intros depth kids E. discriminate E.
Qed.

Lemma html_sub_heading options v : sub_heading options (Html v).
Proof. intros depth kids E. discriminate E. Qed.

(** Shows that the tables and the raw markup of a section hold no heading
    but table headings. *)
Ltac sub_headings :=
  repeat first
    [ assumption
    | apply Forall_nil
    | apply html_sub_heading
    | eapply table_sub_headings; [|eassumption]; reflexivity
    | apply Forall_app; split
    | apply Forall_cons ].

(** X7: the section of a class or mixin starts with its heading, at level 2
    plus the offset: the kind, the name as inline code and, only when the
    declaration has a tag name, the tag name as inline code.  A declaration
    of another kind gets no heading of its own.  Every other heading of a
    section is a table heading, one level deeper, with its title as only
    child. *)
Theorem declaration_heading_first
    (options : option Options) (decl : value) (nodes : list node) :
  declarationSection options decl = Ok nodes ->
  (isMixinOrClass (get_prop decl "kind") = true ->
     exists kind rest,
       get_prop decl "kind" = VStr kind /\
       nodes = Heading (2 + offset options)
                 ([Text (VStr (kind ++ ": ")); InlineCode (get_prop decl "name")]
                  ++ (if truthy (get_prop decl "tagName")
                      then [Text (VStr ", "); InlineCode (get_prop decl "tagName")]
                      else []))
               :: rest /\
       Forall (sub_heading options) rest) /\
  (isMixinOrClass (get_prop decl "kind") = false ->
     Forall (sub_heading options) nodes).
Proof.
  intros H. apply declarationSection_inv in H.
  destruct H as (kind & ms & main & Hk & _ & H). cbv zeta in H.
  destruct H as (Hmain & H).
  assert (kind = get_prop decl "kind").
  { unfold prop in Hk. destruct (nullish decl); [discriminate | congruence]. }
  subst kind.
  apply mainNodes_inv in Hmain.
  destruct Hmain as (hd & sc & mx & pa & fT & mT & ev & at_ & cs & pt & sl
                     & Hhd & Hsc & Hmx & Hpa & HfT & HmT & Hev & Hat & Hcs & Hpt & Hsl & ->).
  assert (Upa : Forall (sub_heading options) pa).
  { destruct (is_str (get_prop decl "kind") "mixin").
    - sub_headings.
    - injection Hpa as <-. constructor. }
  assert (Tables : Forall (sub_heading options)
                     (sc ++ mx ++ pa ++ fT ++ mT ++ ev ++ at_ ++ cs ++ pt ++ sl))
    by sub_headings.
  assert (Uline : Forall (sub_heading options) [line]).
  { unfold line, html. sub_headings. }
  split; intros K; rewrite K in Hhd.
  - destruct Hhd as (h & Hd & ->).
    apply declarationHeading_inv in Hd. destruct Hd as (label & Hl & _ & ->).
    destruct (get_prop decl "kind") as [| | | |kind| |] eqn:Ek; try discriminate K.
    injection Hl as <-.
    exists kind. cbn [app] in H |- *.
    destruct (_ && _)%bool.
    + destruct H as (pushed & Hp & ->).
      destruct (privateApi_inv _ _ _ _ Hp) as (pfT & pmT & HpfT & HpmT & ->).
      eexists. split; [reflexivity|]. split; [reflexivity|].
      unfold detailsOpen, detailsClose, html. sub_headings.
    + subst nodes. cbn [app nonempty].
      eexists. split; [reflexivity|]. split; [reflexivity|]. sub_headings.
  - subst hd. cbn [app] in H.
    destruct (_ && _)%bool.
    + destruct H as (pushed & Hp & ->).
      destruct (privateApi_inv _ _ _ _ Hp) as (pfT & pmT & HpfT & HpmT & ->).
      unfold detailsOpen, detailsClose, html. sub_headings.
    + subst nodes. cbn [app]. destruct (nonempty _); sub_headings.
Qed.

Lemma declaration_heading_first_witness :
  exists rest,
    declarationSection details sampleClass
    = Ok (Heading 2 [Text (VStr "class: "); InlineCode (VStr "MyElement")] :: rest)
    /\ Forall (sub_heading details) rest.
Proof.
  destruct (declarationSection details sampleClass) as [nodes|] eqn:E;
    [|vm_compute in E; discriminate].
  destruct (proj1 (declaration_heading_first details sampleClass nodes E) eq_refl)
    as (kind & rest & Hk & -> & R).
  exists rest. injection Hk as <-. split; [reflexivity | exact R].
Defined.

Lemma makeModuleDoc_head (m : value) (options : option Options) (nodes : list node) :
  makeModuleDoc m options = Ok (Some nodes) ->
  exists rest,
    nodes = Heading (1 + offset options)
              [InlineCode (get_prop m "path"); Text (VStr ":")] :: rest.
Proof.
  intros H. unfold makeModuleDoc in H. inv_bind H. inv_bind H.
  destruct (_ && _)%bool; [discriminate|].
  repeat inv_bind H. injection H as <-.
  match goal with
  | E : heading _ _ = Ok _ |- _ => apply heading_Ok in E; destruct E as [-> _]
  end.
  match goal with
  | E : prop m "path" = Ok ?path |- _ =>
      assert (P : path = get_prop m "path")
        by (unfold prop in E; destruct (nullish m); [discriminate | congruence])
  end.
  rewrite filter_identity_Some. cbn [app]. eexists. f_equal.
  unfold inlineCode, text. rewrite P. reflexivity.
Qed.

(** X8: a module document that is present starts with the heading of the
    module's path, at level 1 plus the offset, so it is never empty; and the
    document is absent only for a module that has no declaration and no
    export: one export alone is enough for the module to be rendered. *)
Theorem module_document_presence (m : value) (options : option Options) :
  (forall nodes, makeModuleDoc m options = Ok (Some nodes) ->
     exists rest,
       nodes = Heading (1 + offset options)
                 [InlineCode (get_prop m "path"); Text (VStr ":")] :: rest) /\
  (makeModuleDoc m options = Ok None ->
     (forall xs, get_prop m "declarations" = VArr xs -> xs = []) /\
     (forall xs, get_prop m "exports" = VArr xs -> xs = [])).
Proof.
  split.
  - apply makeModuleDoc_head.
  - intros H. unfold makeModuleDoc in H. inv_bind H. inv_bind H.
    destruct (negb (truthy r) && negb (truthy r0))%bool eqn:G.
    2:{ repeat inv_bind H. discriminate H. }
    apply andb_prop in G. destruct G as [Gd Ge].
    assert (Empty : forall k xs v,
               get_prop m k = VArr xs ->
               prop (coalesce (opt_prop m k) (VArr [])) "length" = Ok v ->
               negb (truthy v) = true -> xs = []).
    { intros k xs v Hk Hl Hv. unfold opt_prop in Hl.
      destruct (nullish m) eqn:N; [destruct m; discriminate|].
      rewrite Hk in Hl. cbn in Hl. injection Hl as <-.
      destruct xs; [reflexivity | discriminate Hv]. }
    split; intros xs Hx; eapply Empty; eassumption.
Qed.

Lemma module_document_presence_witness :
  exists rest,
    makeModuleDoc taggedExportModule None
    = Ok (Some (Heading 1 [InlineCode (VStr "index.js"); Text (VStr ":")] :: rest))
    /\ makeModuleDoc emptyModule None = Ok None
    /\ (forall xs, get_prop emptyModule "exports" = VArr xs -> xs = []).
Proof.
  destruct (makeModuleDoc taggedExportModule None) as [[nodes|]|] eqn:E;
    try (vm_compute in E; discriminate).
  destruct (proj1 (module_document_presence taggedExportModule None) nodes E)
    as (rest & ->).
  exists rest. split; [reflexivity|]. split; [reflexivity|].
  exact (proj2 (proj2 (module_document_presence emptyModule None) eq_refl)).
Defined.

(** X9: documents compose.  The root of a manifest whose modules are those
    of one manifest followed by those of another holds the children of the
    first root followed by the children of the second, and building it throws
    exactly when building one of the two does; a manifest without modules
    gives the empty root; whatever is built is a root. *)
Theorem document_concatenates (options : option Options) (a b : list value) :
  tree (manifest_of (a ++ b)) options
  = (x <- tree (manifest_of a) options ;;
     y <- tree (manifest_of b) options ;;
     Ok (Root (children x ++ children y))) /\
  tree (manifest_of []) options = Ok (Root []) /\
  (forall manifest t, tree manifest options = Ok t -> t = Root (children t)).
Proof.
  split; [|split].
  - unfold tree, manifest_of. cbn [prop nullish get_prop lookup]. simpl String.eqb.
    cbn [bind array_of]. rewrite mapM_app.
    destruct (mapM (fun x => makeModuleDoc x options) a) as [da|]; [|reflexivity].
    cbn [bind].
    destruct (mapM (fun x => makeModuleDoc x options) b) as [db|]; [|reflexivity].
    cbn [bind root children].
    rewrite !filter_identity_spliced, map_app, concat_app. reflexivity.
  - reflexivity.
  - intros manifest t H. unfold tree in H. repeat inv_bind H. injection H as <-.
    reflexivity.
Qed.

Lemma counts_table options title names _decls opts T :
  tableWithTitle options title names _decls opts = Ok T ->
  exists rows,
    surviving options opts _decls = Ok rows /\
    forall t rest,
      dataRowCounts t (T ++ rest)
      = (if String.eqb title t then counts rows else []) ++ dataRowCounts t rest.
Proof.
  intros H. destruct (tableWithTitle_cases _ _ _ _ _ _ H) as (rows & S & C).
  exists rows. split; [exact S|]. intros t rest.
  destruct C as [[-> ->] | [Hne (depth & align & header & body & -> & _ & _ & L & _)]].
  - destruct (String.eqb title t); reflexivity.
  - cbn [app dataRowCounts]. unfold counts.
    destruct rows as [|x rows]; [congruence|]. cbn [nonempty]. rewrite <- L.
    destruct (String.eqb title t); reflexivity.
Qed.

Lemma counts_declarationHeading options decl (b : bool) hd t rest :
  (if b then exists h, declarationHeading options decl = Ok h /\ hd = [h]
   else hd = []) ->
  dataRowCounts t (hd ++ rest) = dataRowCounts t rest.
Proof.
  destruct b.
  - intros (h & H & ->). apply declarationHeading_inv in H.
    destruct H as (label & _ & _ & ->). cbn [app].
    destruct rest as [|[] rest]; reflexivity.
  - intros ->. reflexivity.
Qed.

Lemma list_sum_counts rows : list_sum (counts rows) = List.length rows.
Proof. destruct rows; unfold counts; simpl; lia. Qed.

Lemma filter_split_length {A} (p : A -> bool) xs :
  (List.length (List.filter (fun x => negb (p x)) xs) + List.length (List.filter p xs)
   = List.length xs)%nat.
Proof.
  induction xs as [|x xs IH]; simpl; [reflexivity|].
  destruct (p x); simpl; lia.
Qed.

Lemma existsb_false_filter {A} (p : A -> bool) xs ys :
  existsb p (xs ++ ys) = false -> List.filter p xs = [] /\ List.filter p ys = [].
Proof.
  rewrite existsb_app. intros H. apply orb_false_elim in H. destruct H as [Hx Hy].
  rewrite <- !isLengthy_filter in Hx, Hy.
  destruct (List.filter p xs), (List.filter p ys); try discriminate; auto.
Qed.

Lemma hidden_not_details options :
  private_is options "hidden" = true -> private_is options "details" = false.
Proof.
  destruct options as [[off p]|]; [|discriminate]. simpl.
  destruct p; try discriminate. simpl. intros H.
  apply String.eqb_eq in H. subst. reflexivity.
Qed.

(** The rows of the main table of the members of one kind. *)
Lemma surviving_members options k ms :
  surviving options noOpts (VArr (List.filter (is_kind k) ms))
  = Ok (List.filter (keeps options) (List.filter (is_kind k) ms)).
Proof.
  unfold noOpts. rewrite surviving_policy. f_equal.
  apply filter_all, Forall_filter, Forall_forall.
  intros x Hx. apply filter_In in Hx. eapply is_kind_truthy, Hx.
Qed.

Lemma surviving_private_members options k ms :
  surviving options unfiltered (VArr (List.filter is_restricted (List.filter (is_kind k) ms)))
  = Ok (List.filter is_restricted (List.filter (is_kind k) ms)).
Proof.
  rewrite surviving_unfiltered. f_equal.
  apply filter_all, Forall_filter, Forall_forall.
  intros x Hx. apply filter_In in Hx. eapply is_kind_truthy, Hx.
Qed.

(** The number of members a policy shows, over the whole section. *)
Lemma shown_members options xs ys :
  (List.length (List.filter (keeps options) xs)
   + (if (private_is options "details" && existsb is_restricted (xs ++ ys))%bool
      then List.length (List.filter is_restricted xs) else 0)
   = List.length (if private_is options "hidden"
                  then List.filter (fun x => negb (is_private x)) xs
                  else List.filter (fun x => if private_is options "details"
                                             then true else truthy x) xs))%nat.
Proof.
  unfold keeps. destruct (private_is options "hidden") eqn:Hh.
  - rewrite (hidden_not_details _ Hh). simpl. lia.
  - destruct (private_is options "details"); simpl.
    + rewrite (filter_all (fun _ => true) xs) by (apply Forall_forall; reflexivity).
      destruct (existsb is_restricted (xs ++ ys)) eqn:X.
      * apply filter_split_length.
      * destruct (existsb_false_filter _ _ _ X) as [Fx _].
        pose proof (filter_split_length is_restricted xs) as L.
        rewrite Fx in L. simpl in L. lia.
    + lia.
Qed.

(** X10: how many members a section shows.  The main Fields table has one
    data row per field the policy keeps, and the Private API block, when
    there is one, one per private or protected field; no other table is
    titled Fields.  In total, "hidden" shows every field that is not private
    (protected ones included), and "details" and the default policy show
    every field exactly once.  The same holds of Methods. *)
Theorem member_rows_by_policy
    (options : option Options) (decl : value) (nodes : list node) :
  declarationSection options decl = Ok nodes ->
  exists ms,
    array_of (default_to (VArr []) (get_prop decl "members")) = Ok ms /\
    let fields := List.filter (is_kind "field") ms in
    let methods := List.filter (is_kind "method") ms in
    let block := (private_is options "details"
                  && existsb is_restricted (fields ++ methods))%bool in
    dataRowCounts "Fields" nodes
    = counts (List.filter (keeps options) fields)
      ++ (if block then counts (List.filter is_restricted fields) else []) /\
    dataRowCounts "Methods" nodes
    = counts (List.filter (keeps options) methods)
      ++ (if block then counts (List.filter is_restricted methods) else []) /\
    list_sum (dataRowCounts "Fields" nodes)
    = List.length (if private_is options "hidden"
                   then List.filter (fun x => negb (is_private x)) fields
                   else fields) /\
    list_sum (dataRowCounts "Methods" nodes)
    = List.length (if private_is options "hidden"
                   then List.filter (fun x => negb (is_private x)) methods
                   else methods).
Proof.
  intros H. apply declarationSection_inv in H.
  destruct H as (kind & ms & main & _ & Hms & H). cbv zeta in H.
  destruct H as (Hmain & H).
  exists ms. split; [exact Hms|]. cbv zeta.
  set (fields := List.filter (is_kind "field") ms) in *.
  set (methods := List.filter (is_kind "method") ms) in *.
  apply mainNodes_inv in Hmain.
  destruct Hmain as (hd & sc & mx & pa & fT & mT & ev & at_ & cs & pt & sl
                     & Hhd & Hsc & Hmx & Hpa & HfT & HmT & Hev & Hat & Hcs & Hpt & Hsl & ->).
  assert (Main : forall rest,
             dataRowCounts "Fields"
               ((hd ++ sc ++ mx ++ pa ++ fT ++ mT ++ ev ++ at_ ++ cs ++ pt ++ sl) ++ rest)
             = counts (List.filter (keeps options) fields) ++ dataRowCounts "Fields" rest
             /\
             dataRowCounts "Methods"
               ((hd ++ sc ++ mx ++ pa ++ fT ++ mT ++ ev ++ at_ ++ cs ++ pt ++ sl) ++ rest)
             = counts (List.filter (keeps options) methods) ++ dataRowCounts "Methods" rest).
  { intros rest.
    assert (Hpa' : exists rows, forall t rest',
                 dataRowCounts t (pa ++ rest')
                 = (if String.eqb "Parameters" t then counts rows else [])
                   ++ dataRowCounts t rest').
    { destruct (is_str kind "mixin").
      - destruct (counts_table _ _ _ _ _ _ Hpa) as (rows & _ & E). eauto.
      - injection Hpa as <-. exists []. intros t rest'.
        destruct (String.eqb "Parameters" t); reflexivity. }
    destruct Hpa' as (rpa & Epa).
    destruct (counts_table _ _ _ _ _ _ Hsc) as (rsc & _ & Esc).
    destruct (counts_table _ _ _ _ _ _ Hmx) as (rmx & _ & Emx).
    destruct (counts_table _ _ _ _ _ _ HfT) as (rf & Sf & Ef).
    destruct (counts_table _ _ _ _ _ _ HmT) as (rm & Sm & Em).
    destruct (counts_table _ _ _ _ _ _ Hev) as (rev_ & _ & Eev).
    destruct (counts_table _ _ _ _ _ _ Hat) as (rat & _ & Eat).
    destruct (counts_table _ _ _ _ _ _ Hcs) as (rcs & _ & Ecs).
    destruct (counts_table _ _ _ _ _ _ Hpt) as (rpt & _ & Ept).
    destruct (counts_table _ _ _ _ _ _ Hsl) as (rsl & _ & Esl).
    unfold fields, methods in Sf, Sm.
    rewrite surviving_members in Sf, Sm. injection Sf as <-. injection Sm as <-.
    rewrite <- !app_assoc.
    split;
      rewrite (counts_declarationHeading _ _ _ _ _ _ Hhd),
        Esc, Emx, Epa, Ef, Em, Eev, Eat, Ecs, Ept, Esl;
      reflexivity. }
  assert (Block : forall pushed,
             privateApi options fields methods = Ok pushed ->
             forall rest,
               dataRowCounts "Fields" (pushed ++ rest)
               = counts (List.filter is_restricted fields) ++ dataRowCounts "Fields" rest
               /\
               dataRowCounts "Methods" (pushed ++ rest)
               = counts (List.filter is_restricted methods)
                 ++ dataRowCounts "Methods" rest).
  { intros pushed Hp rest.
    destruct (privateApi_inv _ _ _ _ Hp) as (pfT & pmT & HpfT & HpmT & ->).
    destruct (counts_table _ _ _ _ _ _ HpfT) as (rf & Sf & Ef).
    destruct (counts_table _ _ _ _ _ _ HpmT) as (rm & Sm & Em).
    unfold fields, methods in Sf, Sm.
    rewrite surviving_private_members in Sf, Sm. injection Sf as <-. injection Sm as <-.
    rewrite <- !app_assoc. cbn [app dataRowCounts detailsOpen html].
    split; rewrite Ef, Em; reflexivity. }
  assert (Counts :
    dataRowCounts "Fields" nodes
    = counts (List.filter (keeps options) fields)
      ++ (if (private_is options "details"
              && existsb is_restricted (fields ++ methods))%bool
          then counts (List.filter is_restricted fields) else []) /\
    dataRowCounts "Methods" nodes
    = counts (List.filter (keeps options) methods)
      ++ (if (private_is options "details"
              && existsb is_restricted (fields ++ methods))%bool
          then counts (List.filter is_restricted methods) else [])).
  { destruct (_ && _)%bool.
    - destruct H as (pushed & Hp & ->). rewrite <- app_assoc.
      destruct (Main (pushed ++ [line])) as [-> ->].
      destruct (Block pushed Hp [line]) as [-> ->].
      cbn [dataRowCounts line html]. rewrite !app_nil_r. split; reflexivity.
    - subst nodes. destruct (nonempty _).
      + destruct (Main [line]) as [-> ->]. split; reflexivity.
      + rewrite <- (app_nil_r (_ ++ _)).
        destruct (Main []) as [-> ->]. split; reflexivity. }
  destruct Counts as [Cf Cm]. split; [exact Cf|]. split; [exact Cm|].
  rewrite Cf, Cm, !list_sum_app.
  assert (Sum : forall xs ys,
             (list_sum (counts (List.filter (keeps options) xs))
              + list_sum (if (private_is options "details"
                              && existsb is_restricted (xs ++ ys))%bool
                          then counts (List.filter is_restricted xs) else [])
              = List.length (if private_is options "hidden"
                             then List.filter (fun x => negb (is_private x)) xs
                             else List.filter (fun x => if private_is options "details"
                                                        then true else truthy x) xs))%nat).
  { intros xs ys. rewrite <- shown_members with (ys := ys).
    destruct (private_is options "details" && existsb is_restricted (xs ++ ys))%bool;
      rewrite !list_sum_counts; reflexivity. }
  assert (All : forall k,
             List.filter (fun x => if private_is options "details" then true else truthy x)
               (List.filter (is_kind k) ms)
             = List.filter (is_kind k) ms).
  { intros k. apply filter_all, Forall_forall. intros x Hx.
    apply filter_In in Hx. destruct Hx as [_ Hx].
    rewrite (is_kind_truthy _ _ Hx). destruct (private_is options "details"); reflexivity. }
  split.
  - rewrite (Sum fields methods). unfold fields. rewrite All. reflexivity.
  - assert (Swap : existsb is_restricted (fields ++ methods)
                   = existsb is_restricted (methods ++ fields)).
    { rewrite !existsb_app. apply orb_comm. }
    rewrite Swap, (Sum methods fields). unfold methods. rewrite All. reflexivity.
Qed.

Lemma member_rows_by_policy_witness :
  exists a b,
    declarationSection hidden sampleClass = Ok a
    /\ declarationSection details sampleClass = Ok b
    /\ list_sum (dataRowCounts "Fields" a) = 2%nat
    /\ list_sum (dataRowCounts "Fields" b) = 3%nat.
Proof.
  destruct (declarationSection hidden sampleClass) as [a|] eqn:Ea;
    [|vm_compute in Ea; discriminate].
  destruct (declarationSection details sampleClass) as [b|] eqn:Eb;
    [|vm_compute in Eb; discriminate].
  exists a, b. split; [reflexivity|]. split; [reflexivity|].
  destruct (member_rows_by_policy hidden sampleClass a Ea) as (msa & Ma & _ & _ & Sa & _).
  destruct (member_rows_by_policy details sampleClass b Eb) as (msb & Mb & _ & _ & Sb & _).
  vm_compute in Ma, Mb. injection Ma as <-. injection Mb as <-.
  split; [rewrite Sa | rewrite Sb]; reflexivity.
Defined.

Lemma table_titled options title names _decls opts rows nodes :
  surviving options opts _decls = Ok rows -> rows <> [] ->
  tableWithTitle options title names _decls opts = Ok nodes ->
  exists n rest, nodes = n :: rest /\ titled title n.
Proof.
  intros S Hne H.
  destruct (tableWithTitle_inv _ _ _ _ _ _ _ S Hne H) as (columns & body & _ & _ & ->).
  do 2 eexists. split; [reflexivity|]. eexists; reflexivity.
Qed.

(** X11: only a mixin gets a Parameters table.  The section of a
    declaration of any other kind holds no heading titled Parameters, whatever
    its [parameters] field is (the field is not even read for it); the
    section of a mixin holds one exactly when some parameter survives the row
    filter. *)
Theorem parameters_only_for_mixins
    (options : option Options) (decl : value) (nodes : list node) :
  declarationSection options decl = Ok nodes ->
  (is_str (get_prop decl "kind") "mixin" = false ->
     ~ Exists (titled "Parameters") nodes) /\
  (is_str (get_prop decl "kind") "mixin" = true ->
     exists rows,
       surviving options noOpts (get_prop decl "parameters") = Ok rows /\
       (Exists (titled "Parameters") nodes <-> rows <> [])).
Proof.
  intros H. apply declarationSection_inv in H.
  destruct H as (kind & ms & main & Hk & _ & H). cbv zeta in H.
  destruct H as (Hmain & H).
  assert (kind = get_prop decl "kind").
  { unfold prop in Hk. destruct (nullish decl); [discriminate | congruence]. }
  subst kind.
  apply mainNodes_inv in Hmain.
  destruct Hmain as (hd & sc & mx & pa & fT & mT & ev & at_ & cs & pt & sl
                     & Hhd & Hsc & Hmx & Hpa & HfT & HmT & Hev & Hat & Hcs & Hpt & Hsl & ->).
  assert (Uline : Forall (fun n => ~ titled "Parameters" n) [line]).
  { unfold line, html. untitled. }
  assert (Without : Forall (fun n => ~ titled "Parameters" n) pa ->
                    ~ Exists (titled "Parameters") nodes).
  { intros Upa. apply Forall_Exists_neg.
    destruct (_ && _)%bool.
    - destruct H as (pushed & Hp & ->).
      destruct (privateApi_inv _ _ _ _ Hp) as (pfT & pmT & HpfT & HpmT & ->).
      unfold detailsOpen, detailsClose, html; untitled.
    - subst nodes. destruct (nonempty _); untitled. }
  split; intros K; rewrite K in Hpa.
  - apply Without. injection Hpa as <-. constructor.
  - destruct (tableWithTitle_cases _ _ _ _ _ _ Hpa) as (rows & S & C).
    exists rows. split; [exact S|].
    destruct C as [[-> ->] | [Hne _]].
    + split; [intros E; exfalso; revert E; apply Without; constructor | congruence].
    + split; [intros _; exact Hne | intros _].
      destruct (table_titled _ _ _ _ _ _ _ S Hne Hpa) as (n & rest & -> & T).
      apply Exists_exists. exists n. split; [|exact T].
      assert (InMain : In n (hd ++ sc ++ mx ++ (n :: rest) ++ fT ++ mT ++ ev ++ at_
                             ++ cs ++ pt ++ sl)).
      { apply in_or_app. right. apply in_or_app. right. apply in_or_app. right.
        left. reflexivity. }
      destruct (_ && _)%bool.
      * destruct H as (pushed & _ & ->).
        apply in_or_app. left. apply in_or_app. left. exact InMain.
      * subst nodes. destruct (nonempty _); [apply in_or_app; left|]; exact InMain.
Qed.

Lemma parameters_only_for_mixins_witness :
  let mixinDecl := VObj [("kind", VStr "mixin"); ("name", VStr "Themable");
                         ("parameters", VArr [VObj [("name", VStr "Base")]])] in
  let classDecl := VObj [("kind", VStr "class"); ("name", VStr "Themed");
                         ("parameters", VStr "Base")] in
  (exists nodes, declarationSection None mixinDecl = Ok nodes
                 /\ Exists (titled "Parameters") nodes)
  /\ (exists nodes, declarationSection None classDecl = Ok nodes
                    /\ ~ Exists (titled "Parameters") nodes).
Proof.
  intros mixinDecl classDecl. split.
  - destruct (declarationSection None mixinDecl) as [nodes|] eqn:E;
      [|vm_compute in E; discriminate].
    exists nodes. split; [reflexivity|].
    destruct (proj2 (parameters_only_for_mixins None mixinDecl nodes E) eq_refl)
      as (rows & S & Iff).
    apply Iff. vm_compute in S. injection S as <-. discriminate.
  - destruct (declarationSection None classDecl) as [nodes|] eqn:E;
      [|vm_compute in E; discriminate].
    exists nodes. split; [reflexivity|].
    exact (proj1 (parameters_only_for_mixins None classDecl nodes E) eq_refl).
Defined.

Lemma table_nullish options title names _decls opts :
  nullish _decls = true -> tableWithTitle options title names _decls opts = Ok [].
Proof.
  intros N. apply tableWithTitle_empty. unfold surviving.
  destruct _decls; try discriminate; reflexivity.
Qed.

(** X12: a declaration that is neither a class nor a mixin and has no
    superclass, mixins, members, events, attributes, CSS properties, parts or
    slots (a plain function or variable) adds nothing to the per-declaration
    part of the document, not even a separator, under every policy; a module
    of such declarations is its path heading followed by the module-level
    tables. *)
Theorem plain_declarations_are_silent (options : option Options) :
  (forall decl,
      nullish decl = false ->
      isMixinOrClass (get_prop decl "kind") = false ->
      truthy (get_prop decl "superclass") = false ->
      optional_array (get_prop decl "members") = true ->
      elements (get_prop decl "members") = [] ->
      nullish (get_prop decl "mixins") = true ->
      nullish (get_prop decl "events") = true ->
      nullish (get_prop decl "attributes") = true ->
      nullish (get_prop decl "cssProperties") = true ->
      nullish (get_prop decl "parts") = true ->
      nullish (get_prop decl "slots") = true ->
      declarationSection options decl = Ok []) /\
  (forall m ds nodes,
      get_prop m "declarations" = VArr ds ->
      Forall (fun decl => declarationSection options decl = Ok []) ds ->
      makeModuleDoc m options = Ok (Some nodes) ->
      exists vT fT eT,
        tableWithTitle options "Variables" variableColumns
          (VArr (List.filter (is_kind "variable") ds)) level2 = Ok vT /\
        tableWithTitle options "Functions" functionColumns
          (VArr (List.filter (is_kind "function") ds)) level2 = Ok fT /\
        tableWithTitle options "Exports" exportColumns (get_prop m "exports") level2
        = Ok eT /\
        nodes = [Heading (1 + offset options)
                   [InlineCode (get_prop m "path"); Text (VStr ":")]]
                ++ vT
                ++ (if nonempty (List.filter (is_kind "variable") ds) then [line] else [])
                ++ fT
                ++ (if nonempty (List.filter (is_kind "function") ds) then [line] else [])
                ++ eT).
Proof.
  split.
  - intros decl N K Sc Me El Mx Ev At Cs Pt Sl.
    unfold declarationSection, prop. rewrite N. cbn [bind].
    rewrite (members_array _ Me), El. cbn [bind Js.filter].
    assert (Km : is_str (get_prop decl "kind") "mixin" = false).
    { unfold isMixinOrClass in K. apply orb_false_elim in K. tauto. }
    unfold mainNodes. cbv zeta. rewrite Km.
    rewrite (tableWithTitle_empty _ _ _ _ _ (surviving_absent options None _ Sc)).
    rewrite (table_nullish options "Mixins" _ _ noOpts Mx).
    rewrite (table_nullish options "Events" _ _ noOpts Ev).
    rewrite (table_nullish options "Attributes" _ _ noOpts At).
    rewrite (table_nullish options "CSS Properties" _ _ noOpts Cs).
    rewrite (table_nullish options "Parts" _ _ noOpts Pt).
    rewrite (table_nullish options "Slots" _ _ noOpts Sl).
    rewrite (tableWithTitle_empty options "Fields" fieldColumns (VArr []) noOpts eq_refl).
    rewrite (tableWithTitle_empty options "Methods" methodColumns (VArr []) noOpts eq_refl).
    cbn [bind]. rewrite K. cbn [negb app map filter_identity bind].
    rewrite hasPrivateApi_spec. cbn [app existsb]. rewrite andb_false_r. reflexivity.
  - intros m ds nodes Hd Silent H.
    destruct (makeModuleDoc_head m options nodes H) as (rest & Hhead).
    apply makeModuleDoc_inv in H.
    destruct H as (ds' & path & sections & vT & fT & eT & Hds & Hs & HvT & HfT & HeT & E).
    assert (ds' = ds).
    { unfold opt_prop in Hds. destruct (nullish m) eqn:N; [destruct m; discriminate|].
      rewrite Hd in Hds. cbn in Hds. injection Hds as <-. reflexivity. }
    subst ds'.
    assert (Flat : List.concat sections = []).
    { clear -Hs Silent. revert sections Hs.
      induction Silent as [|d ds Hd _ IH]; intros sections Hs; simpl in Hs.
      - injection Hs as <-. reflexivity.
      - rewrite Hd in Hs. cbn [bind] in Hs. inv_bind Hs. injection Hs as <-.
        simpl. apply IH. assumption. }
    exists vT, fT, eT. split; [exact HvT|]. split; [exact HfT|]. split; [exact HeT|].
    rewrite E in Hhead. cbn [app] in Hhead. injection Hhead as Hp _.
    rewrite E, Flat, Hp. reflexivity.
Qed.

Lemma plain_declarations_are_silent_witness :
  let f := VObj [("kind", VStr "function"); ("name", VStr "f");
                 ("parameters", VArr [VObj [("name", VStr "x")]])] in
  declarationSection details f = Ok []
  /\ exists nodes, makeModuleDoc plainModule details = Ok (Some nodes)
                   /\ dataRowCounts "Functions" nodes = [1%nat].
Proof.
  intros f.
  destruct (plain_declarations_are_silent details) as (Silent & Module).
  assert (Sf : forall d, In d (elements (get_prop plainModule "declarations")) ->
                         declarationSection details d = Ok []).
  { intros d [<- | [<- | []]];
      apply Silent; reflexivity. }
  split; [apply Sf; right; left; reflexivity|].
  destruct (makeModuleDoc plainModule details) as [[nodes|]|] eqn:E;
    try (vm_compute in E; discriminate).
  exists nodes. split; [reflexivity|].
  destruct (Module plainModule _ nodes eq_refl (proj2 (Forall_forall _ _) Sf) E)
    as (vT & fT & eT & HvT & HfT & HeT & ->).
  vm_compute in HvT, HfT, HeT.
  injection HvT as <-. injection HfT as <-. injection HeT as <-. reflexivity.
Defined.

Lemma append_empty (a b : string) : (a ++ b)%string = "" -> a = "" /\ b = "".
Proof. destruct a; simpl; intros H; [auto | discriminate]. Qed.

Lemma join_several (a b : string) (rest : list string) :
  join ", " (a :: b :: rest) <> "".
Proof.
  cbn [join]. intros H. apply append_empty in H. destruct H as [_ H].
  apply append_empty in H. destruct H as [H _]. discriminate H.
Qed.

Lemma append_empty_r (s : string) : (s ++ "")%string = s.
Proof. induction s as [|c s IH]; simpl; [reflexivity | rewrite IH; reflexivity]. Qed.

Lemma truthy_string s : s <> "" -> truthy (VStr s) = true.
Proof. intros H. simpl. apply negb_true_iff, String.eqb_neq, H. Qed.

(** X13: the Parameters cell of a method or function.  Without parameters
    (the field absent or an empty array) the cell is empty.  With an array of
    parameters that can all be shown, the cell lists them in their order,
    separated by a comma and a space, as inline code, unless that text is
    empty, which leaves the cell empty: so it is for the one parameter
    [{ name: '' }]; with two parameters or more the text is never empty.  A
    parameter named by a string is shown by its name, followed by a colon and
    its type text when that is a string that is not empty, and by its name
    alone when it has no type text; a parameter without a name or a type text
    is shown as "undefined".  A name that cannot be converted to a string, an
    object with a [toString] key of its own, throws, and when a parameter
    throws so does the cell. *)
Theorem parameters_cell (x : value) :
  (nullish (opt_prop x "parameters") = true \/ opt_prop x "parameters" = VArr [] ->
     renders x (Desc PARAMETERS) emptyCell) /\
  (forall ps shown,
     opt_prop x "parameters" = VArr ps -> mapM formatParameter ps = Ok shown ->
     renders x (Desc PARAMETERS) (cell_code (VStr (join ", " shown))) /\
     ((2 <= List.length ps)%nat ->
        cell_code (VStr (join ", " shown))
        = TableCell [InlineCode (VStr (join ", " shown))])) /\
  (opt_prop x "parameters" = VArr [VObj [("name", VStr "")]] ->
     renders x (Desc PARAMETERS) emptyCell) /\
  (forall ps,
     opt_prop x "parameters" = VArr ps -> mapM formatParameter ps = TypeError ->
     Descriptor.get (getDescriptor (Desc PARAMETERS)) x = TypeError) /\
  (forall p n, opt_prop p "name" = VStr n ->
     truthy (opt_prop (opt_prop p "type") "text") = false ->
     formatParameter p = Ok n) /\
  (forall p n t, opt_prop p "name" = VStr n ->
     opt_prop (opt_prop p "type") "text" = VStr t -> t <> "" ->
     formatParameter p = Ok (n ++ ": " ++ t)%string) /\
  (forall p, opt_prop p "name" = VUndefined ->
     truthy (opt_prop (opt_prop p "type") "text") = false ->
     formatParameter p = Ok "undefined") /\
  (forall p props, opt_prop p "name" = VObj props ->
     has_own "toString" props = true ->
     formatParameter p = TypeError).
Proof.
  assert (Shown : forall ps shown,
             opt_prop x "parameters" = VArr ps -> mapM formatParameter ps = Ok shown ->
             renders x (Desc PARAMETERS) (cell_code (VStr (join ", " shown)))).
  { intros ps shown E M. eexists. split.
    - simpl. unfold formatParameters. rewrite E. cbn [nullish array_of bind].
      rewrite M. reflexivity.
    - unfold cell_code. destruct (truthy (VStr (join ", " shown))); [|reflexivity].
      eexists. split; reflexivity. }
  split; [|split; [|split; [|split; [|split; [|split; [|split]]]]]].
  - intros H. exists (match opt_prop x "parameters" with
                      | VArr _ => VStr ""
                      | _ => VUndefined
                      end).
    split.
    + simpl. unfold formatParameters.
      destruct H as [N | E]; [|rewrite E; reflexivity].
      destruct (opt_prop x "parameters"); try discriminate N; reflexivity.
    + destruct (opt_prop x "parameters"); reflexivity.
  - intros ps shown E M. split; [exact (Shown ps shown E M)|].
    intros L. apply mapM_length in M.
    destruct shown as [|a [|b rest]]; cbn [List.length] in M; try lia.
    unfold cell_code. rewrite (truthy_string _ (join_several a b rest)). reflexivity.
  - intros E. exact (Shown _ [""] E eq_refl).
  - intros ps E M. simpl. unfold formatParameters. rewrite E.
    cbn [nullish array_of bind]. rewrite M. reflexivity.
  - intros p n En Et. unfold formatParameter. rewrite En, Et.
    cbn [to_string bind]. rewrite append_empty_r. reflexivity.
  - intros p n t En Et Hne. unfold formatParameter. rewrite En, Et.
    rewrite (truthy_string _ Hne).
    assert (G : get_prop (get_prop p "type") "text" = VStr t).
    { unfold opt_prop in Et. destruct (nullish p); [discriminate|].
      destruct (nullish (get_prop p "type")); [discriminate | exact Et]. }
    rewrite G. reflexivity.
  - intros p En Et. unfold formatParameter. rewrite En, Et. reflexivity.
  - intros p props En Ho. unfold formatParameter. rewrite En.
    cbn [to_string]. rewrite Ho. reflexivity.
Qed.

Lemma parameters_cell_witness :
  let method := VObj [("kind", VStr "method"); ("name", VStr "move");
                      ("parameters",
                       VArr [VObj [("name", VStr "x");
                                   ("type", VObj [("text", VStr "number")])];
                             VObj [("name", VStr "y")]])] in
  let unnamed := VObj [("kind", VStr "method");
                       ("parameters", VArr [VObj [("name", VStr "")]])] in
  let odd := VObj [("name", VObj [("toString", VStr "x")])] in
  renders method (Desc PARAMETERS) (TableCell [InlineCode (VStr "x: number, y")])
  /\ renders (VObj [("kind", VStr "method")]) (Desc PARAMETERS) emptyCell
  /\ renders unnamed (Desc PARAMETERS) emptyCell
  /\ formatParameter odd = TypeError.
Proof.
  intros method unnamed odd. split; [|split; [|split]].
  - exact (proj1 (proj1 (proj2 (parameters_cell method)) _ _ eq_refl eq_refl)).
  - exact (proj1 (parameters_cell (VObj [("kind", VStr "method")]))
             (or_introl eq_refl)).
  - exact (proj1 (proj2 (proj2 (parameters_cell unnamed))) eq_refl).
  - exact (proj2 (proj2 (proj2 (proj2 (proj2 (proj2 (proj2 (parameters_cell odd)))))))
             odd _ eq_refl eq_refl).
Defined.

(** X14: what the other columns show of a row that reached the table.  A
    column named by a bare field shows that property as plain text.  Type
    shows [type.text], Default shows [default] and Return shows
    [return.type.text] as inline code; Inherited From, Field, Declaration,
    Module and Package show [inheritedFrom.name], [fieldName] and
    [declaration.name], [.module], [.package] as plain text.  In every case a
    missing or falsy value gives the empty cell; and a [return] record without
    a type text is itself put into the inline code. *)
Theorem descriptor_cells (x : value) :
  truthy x = true ->
  (forall name, renders x (Name name) (cell_text (get_prop x name))) /\
  renders x (Desc TYPE) (cell_code (opt_prop (get_prop x "type") "text")) /\
  renders x (Desc DEFAULT) (cell_code (get_prop x "default")) /\
  renders x (Desc RETURN)
    (cell_code (coalesce (opt_prop (opt_prop (get_prop x "return") "type") "text")
                  (get_prop x "return"))) /\
  renders x (Desc INHERITANCE) (cell_text (opt_prop (get_prop x "inheritedFrom") "name")) /\
  renders x (Desc ATTR_FIELD) (cell_text (get_prop x "fieldName")) /\
  renders x (Desc DECLARATION) (cell_text (opt_prop (get_prop x "declaration") "name")) /\
  renders x (Desc MODULE) (cell_text (opt_prop (get_prop x "declaration") "module")) /\
  renders x (Desc PACKAGE) (cell_text (opt_prop (get_prop x "declaration") "package")).
Proof.
  intros T.
  assert (Text_ : forall v,
             if truthy (coalesce v (VStr ""))
             then exists n, text_cell (coalesce v (VStr "")) = Ok n
                            /\ cell_text v = TableCell [n]
             else cell_text v = emptyCell).
  { intros v. unfold cell_text, coalesce, text_cell, text.
    destruct v as [| |[|]|n|s| |]; simpl; eauto.
    - destruct (n =? 0); simpl; eauto.
    - destruct (String.eqb s ""); simpl; eauto. }
  assert (Code : forall v,
             if truthy (coalesce v (VStr ""))
             then exists n, inlineCode_cell (coalesce v (VStr "")) = Ok n
                            /\ cell_code v = TableCell [n]
             else cell_code v = emptyCell).
  { intros v. unfold cell_code, coalesce, inlineCode_cell, inlineCode.
    destruct v as [| |[|]|n|s| |]; simpl; eauto.
    - destruct (n =? 0); simpl; eauto.
    - destruct (String.eqb s ""); simpl; eauto. }
  assert (NoNull : nullish x = false) by (apply truthy_not_nullish, T).
  assert (Plain : forall v,
             if truthy v
             then exists n, text_cell v = Ok n /\ cell_text v = TableCell [n]
             else cell_text v = emptyCell).
  { intros v. unfold cell_text, text_cell, text.
    destruct (truthy v); [eexists; split; reflexivity | reflexivity]. }
  assert (Inline : forall v,
             if truthy v
             then exists n, inlineCode_cell v = Ok n /\ cell_code v = TableCell [n]
             else cell_code v = emptyCell).
  { intros v. unfold cell_code, inlineCode_cell, inlineCode.
    destruct (truthy v); [eexists; split; reflexivity | reflexivity]. }
  split; [|repeat split].
  - intros name. exists (get_prop x name). split.
    + simpl. unfold opt_prop. rewrite NoNull. reflexivity.
    + apply Plain.
  - eexists. split; [simpl; rewrite (prop_returns _ _ T); reflexivity|]. apply Code.
  - eexists. split; [simpl; rewrite (prop_returns _ _ T); reflexivity|]. apply Inline.
  - eexists. split; [simpl; rewrite (prop_returns _ _ T); reflexivity|]. apply Inline.
  - eexists. split; [simpl; rewrite (prop_returns _ _ T); reflexivity|]. apply Text_.
  - eexists. split; [simpl; rewrite (prop_returns _ _ T); reflexivity|]. apply Plain.
  - eexists. split; [simpl; rewrite (prop_returns _ _ T); reflexivity|]. apply Text_.
  - eexists. split; [simpl; rewrite (prop_returns _ _ T); reflexivity|]. apply Text_.
  - eexists. split; [simpl; rewrite (prop_returns _ _ T); reflexivity|]. apply Text_.
Qed.

Lemma descriptor_cells_witness :
  let method := VObj [("kind", VStr "method"); ("name", VStr "close");
                      ("return", VObj [("description", VStr "nothing")])] in
  truthy method = true
  /\ renders method (Desc RETURN)
       (TableCell [InlineCode (VObj [("description", VStr "nothing")])])
  /\ renders method (Desc TYPE) emptyCell
  /\ renders method (Name "name") (TableCell [Text (VStr "close")]).
Proof.
  intros method.
  destruct (descriptor_cells method eq_refl) as (N & Ty & _ & R & _).
  split; [reflexivity|]. split; [exact R|]. split; [exact Ty | exact (N "name")].
Defined.
